(** * Blue/green rollout of the SageCell compute containers

    A shallow embedding of [contrib/vm/container_manager.py]: the
    [SCLXC] container wrapper, the HA-Proxy configuration generator
    [restart_haproxy] and the [--deploy] rotation of the compute nodes.
    Python strings are [string]s, the LXC registry is a finite map from
    container names to container states, and a script run is a function
    from the state of the host to the new state and either a value or the
    exception that ended it. *)

From Stdlib Require Import Strings.String Strings.Ascii Numbers.DecimalString.
From stdpp Require Import base gmap strings list.

Local Open Scope string_scope.

(** ** Python string operations used by the script *)

Module PyStr.

Definition LF : ascii := Ascii.ascii_of_nat 10.
Definition CR : ascii := Ascii.ascii_of_nat 13.
Definition nl : string := String LF EmptyString.

(** [s.startswith(p)] *)
Fixpoint startswith (p s : string) : bool :=
  match p, s with
  | EmptyString, _ => true
  | String a p', String b s' => Ascii.eqb a b && startswith p' s'
  | String _ _, EmptyString => false
  end.

(** [sub in s] *)
Fixpoint contains (sub s : string) : bool :=
  startswith sub s ||
  match s with
  | EmptyString => false
  | String _ s' => contains sub s'
  end.

(** [s.replace(old, new)] for a non-empty [old]: occurrences are replaced
    from left to right and do not overlap; [skip] counts the characters of
    a matched occurrence that are still to be dropped. *)
Fixpoint replace_from (old new : string) (skip : nat) (s : string) : string :=
  match s with
  | EmptyString => EmptyString
  | String c s' =>
      match skip with
      | S k => replace_from old new k s'
      | O =>
          if startswith old s
          then new ++ replace_from old new (String.length old - 1) s'
          else String c (replace_from old new 0 s')
      end
  end.

(** With an empty [old] Python puts [new] before every character and at
    the end. *)
Fixpoint intersperse (new s : string) : string :=
  match s with
  | EmptyString => new
  | String c s' => new ++ String c (intersperse new s')
  end.

Definition replace (old new s : string) : string :=
  match old with
  | EmptyString => intersperse new s
  | _ => replace_from old new 0 s
  end.

(** [sep.join(l)] *)
Definition join (sep : string) (l : list string) : string := String.concat sep l.

(** The one-byte line boundaries of [str.splitlines]: LF, VT, FF, CR, FS,
    GS and RS. *)
Definition is_linebreak (c : ascii) : bool :=
  let n := Ascii.nat_of_ascii c in
  ((n =? 10) || (n =? 11) || (n =? 12) || (n =? 13) ||
   (n =? 28) || (n =? 29) || (n =? 30))%nat.

Definition cons_char (c : ascii) (ls : list string) : list string :=
  match ls with
  | [] => [String c EmptyString]
  | l :: ls' => String c l :: ls'
  end.

(** Cut at every line boundary, CR LF counting as one. *)
Fixpoint split_breaks (after_cr : bool) (s : string) : list string :=
  match s with
  | EmptyString => [EmptyString]
  | String c s' =>
      if after_cr && Ascii.eqb c LF then split_breaks false s'
      else if is_linebreak c then EmptyString :: split_breaks (Ascii.eqb c CR) s'
      else cons_char c (split_breaks false s')
  end.

Fixpoint drop_last_empty (ls : list string) : list string :=
  match ls with
  | [] => []
  | [EmptyString] => []
  | l :: ls' => l :: drop_last_empty ls'
  end.

(** [s.splitlines()]: no empty string after a final line boundary. *)
Definition splitlines (s : string) : list string :=
  drop_last_empty (split_breaks false s).

(** [s[:n]] and [s[n:]] *)
Definition take (n : nat) (s : string) : string := String.substring 0 n s.
Definition drop (n : nat) (s : string) : string :=
  String.substring n (String.length s - n) s.

(** [f.readlines()] on a file opened in binary mode: every line keeps its
    LF. *)
Fixpoint readlines (s : string) : list string :=
  match s with
  | EmptyString => []
  | String c s' =>
      if Ascii.eqb c LF then String c EmptyString :: readlines s'
      else cons_char c (readlines s')
  end.

(** [str(n)] for a natural number. *)
Definition str_nat (n : nat) : string := NilEmpty.string_of_uint (Nat.to_uint n).

End PyStr.

(** ** Module-level configuration of the script *)

Definition number_of_compute_nodes : nat := 3.

(** User names and IDs, the mapping every command template is formatted
    with. *)
Definition users : list (string * string) :=
  [("group", "sagecell"); ("GID", "8888");
   ("server", "sc_serv"); ("server_ID", "8888");
   ("worker", "sc_work"); ("worker_ID", "9999")].

Definition lxcn_sagecell : string := "sagecell".
Definition lxcn_tester : string := "sctest".
Definition lxcn_prefix : string := "sc-".

(** Timeout in seconds to wait for a container to shutdown, network to
    start etc. *)
Definition timeout : nat := 60.
(** Time after which SageCell should be up and running. *)
Definition start_delay : nat := 66.
(** How long to wait after starting new containers before destroying old
    ones. *)
Definition deploy_delay : nat := 2 * 60 * 60.

Definition HAProxy_header : string :=
"global
    chroot /var/lib/haproxy
    daemon
    group haproxy
    user haproxy
    log /dev/log local0


defaults
    log global
    mode http
    option dontlognull
    option http-server-close
    option httplog
    option redispatch
    timeout connect 5s
    timeout client 50s
    timeout server 50s

    errorfile 400 /etc/haproxy/errors/400.http
    errorfile 403 /etc/haproxy/errors/403.http
    errorfile 408 /etc/haproxy/errors/408.http
    errorfile 500 /etc/haproxy/errors/500.http
    errorfile 502 /etc/haproxy/errors/502.http
    errorfile 503 /etc/haproxy/errors/503.http
    errorfile 504 /etc/haproxy/errors/504.http
".

(** [{suffix}] and [{port}] have to be set once, lines with [{node}]
    are repeated for each node. *)
Definition HAProxy_section : string :=
"
frontend http{suffix}
    bind *:{port}
    use_backend permalink{suffix} if { path_beg /permalink }
    use_backend static{suffix} if { path_beg /static }
    use_backend compute{suffix}

backend permalink{suffix}
    server central{suffix} sagecell.sagemath.org

backend static{suffix}
    server {node}-static {node}:8889 check

backend compute{suffix}
    cookie  SAGECELL_SERVER insert indirect postonly maxidle 2h
    option httpchk

    server {node} {node}:8888 cookie {node} check port 9888
    server {node}-backup {node}:8888 cookie {node} check backup
".

Definition HAProxy_stats : string :=
"
listen stats
    bind *:9999
    stats enable
    stats refresh 5s
    stats uri /
    stats show-legends
".

(** ** The HA-Proxy configuration document (lines 700-716 of the script) *)

(** One step of [for l in main.splitlines()]. *)
Definition expand_line (nodes : list string) (l : string) : string :=
  if PyStr.contains "{node}" l
  then PyStr.join PyStr.nl (map (fun n => PyStr.replace "{node}" n l) nodes)
  else l.

Definition main_section : string :=
  PyStr.replace "{suffix}" EmptyString (PyStr.replace "{port}" "80" HAProxy_section).

Definition test_section : string :=
  PyStr.replace "{node}" lxcn_tester
    (PyStr.replace "{suffix}" "_test" (PyStr.replace "{port}" "8888" HAProxy_section)).

(** [lines] as [restart_haproxy] builds it from the defined nodes and from
    whether the tester container is defined. *)
Definition haproxy_lines (nodes : list string) (tester : bool) : list string :=
  [HAProxy_header]
  ++ (match nodes with
      | [] => []
      | _ :: _ => map (expand_line nodes) (PyStr.splitlines main_section)
      end)
  ++ (if tester then [test_section] else [])
  ++ [HAProxy_stats].

Definition haproxy_config (nodes : list string) (tester : bool) : string :=
  PyStr.join PyStr.nl (haproxy_lines nodes tester).


(** ** The host the script runs on *)

(** An LXC container as the script can observe it: whether it runs, its
    configuration items (as set on a handle and as last saved) and the
    files below its [lxc.rootfs], keyed by their path in the container. A
    name is defined when the registry maps it to a container. *)
Record Container := mkContainer {
  running : bool;
  config_items : gmap string string;
  saved_config : gmap string string;
  rootfs : gmap string string
}.

Inductive Level := DEBUG | INFO.

Inductive LxcOp :=
| OpStop
| OpDestroy
| OpShutdown (seconds : nat)
| OpStart
| OpGetIps (seconds : nat)
| OpClone (target : string)
| OpSetConfigItem (key value : string)
| OpSaveConfig
| OpAttachWait (command : string).

(** What a run leaves behind in order: log records, calls into the LXC
    binding, commands run on the host, and waits. *)
Inductive Event :=
| EvLog (lvl : Level) (msg : string)
| EvLxc (name : string) (op : LxcOp)
| EvExec (command : string)
| EvSleep (seconds : nat).

(** The newest event is at the head of [trace]; [clock] counts the seconds
    the script has spent waiting. [host_files] and [host_dirs] hold what
    the script itself writes with [open], [os.mkdir] and [shutil.copy];
    what the commands it runs and the handlers of its log write on the
    host is not followed: a command leaves its event and its exit status,
    a log record is an event of the trace. *)
Record World := mkWorld {
  containers : gmap string Container;
  host_files : gmap string string;
  host_dirs : gset string;
  clock : nat;
  trace : list Event
}.

Definition set_containers (f : gmap string Container → gmap string Container)
    (w : World) : World :=
  mkWorld (f (containers w)) (host_files w) (host_dirs w) (clock w) (trace w).

Definition set_host_files (f : gmap string string → gmap string string)
    (w : World) : World :=
  mkWorld (containers w) (f (host_files w)) (host_dirs w) (clock w) (trace w).

Definition add_host_dir (d : string) (w : World) : World :=
  mkWorld (containers w) (host_files w) ({[d]} ∪ host_dirs w) (clock w) (trace w).

Definition emit (e : Event) (w : World) : World :=
  mkWorld (containers w) (host_files w) (host_dirs w) (clock w) (e :: trace w).

Definition sleep (seconds : nat) (w : World) : World :=
  mkWorld (containers w) (host_files w) (host_dirs w) (clock w + seconds)
          (EvSleep seconds :: trace w).

Definition is_defined_in (w : World) (name : string) : bool :=
  bool_decide (is_Some (containers w !! name)).

Definition is_running_in (w : World) (name : string) : bool :=
  match containers w !! name with
  | Some c => running c
  | None => false
  end.

Definition set_running (b : bool) (c : Container) : Container :=
  mkContainer b (config_items c) (saved_config c) (rootfs c).

Definition set_config_items (f : gmap string string → gmap string string)
    (c : Container) : Container :=
  mkContainer (running c) (f (config_items c)) (saved_config c) (rootfs c).

Definition save_config_items (c : Container) : Container :=
  mkContainer (running c) (config_items c) (config_items c) (rootfs c).

Definition set_rootfs (f : gmap string string → gmap string string)
    (c : Container) : Container :=
  mkContainer (running c) (config_items c) (saved_config c) (f (rootfs c)).

(** The container a snapshot clone creates: the saved state of the
    source, not running. *)
Definition snapshot (c : Container) : Container :=
  mkContainer false (saved_config c) (saved_config c) (rootfs c).

(** What the script cannot decide: whether a call into LXC succeeds, which
    addresses a container reports, and how commands end. Every answer may
    depend on the whole state of the host, its history included. *)
Record Runtime := mkRuntime {
  lxc_stop_ok : World → string → bool;
  lxc_destroy_ok : World → string → bool;
  lxc_shutdown_ok : World → string → bool;
  lxc_start_ok : World → string → bool;
  lxc_clone_ok : World → string → string → bool;
  lxc_ips : World → string → list string;
  lxc_attach_status : World → string → string → nat;
  sh_status : World → string → nat;
  sh_output : World → string → string
}.

(** ** Script runs: state of the host and exceptions *)

Inductive exn :=
| RuntimeError (msg : string)
| CalledProcessError (command : string)
| IndexError (msg : string).

Inductive result (A : Type) :=
| Ok (a : A)
| Raise (e : exn).
Arguments Ok {A} a.
Arguments Raise {A} e.

(** A statement maps the state of the host to the state it leaves and
    either its value or the exception it raised; what was done before an
    exception stays done. *)
Definition M (A : Type) : Type := World → World * result A.

Definition ret {A} (a : A) : M A := λ w, (w, Ok a).

Definition raise {A} (e : exn) : M A := λ w, (w, Raise e).

Definition bind {A B} (m : M A) (k : A → M B) : M B :=
  λ w, match m w with
       | (w', Ok a) => k a w'
       | (w', Raise e) => (w', Raise e)
       end.

Notation "'let*' x := m 'in' k" := (bind m (λ x, k))
  (at level 10, x name, m at level 100, k at level 200).
Notation "m >> k" := (bind m (λ _, k))
  (at level 100, k at level 200, right associativity).

(** [try: body except CalledProcessError: handler] *)
Definition try_except_CalledProcessError (body handler : M unit) : M unit :=
  λ w, match body w with
       | (w', Raise (CalledProcessError _)) => handler w'
       | r => r
       end.

(** [if c: body] *)
Definition when (c : bool) (body : M unit) : M unit :=
  if c then body else ret tt.

(** [for x in l: body(x)] *)
Fixpoint for_each {A} (l : list A) (body : A → M unit) : M unit :=
  match l with
  | [] => ret tt
  | x :: l' => body x >> for_each l' body
  end.

Definition modify (f : World → World) : M unit := λ w, (f w, Ok tt).

Definition query {A} (f : World → A) : M A := λ w, (w, Ok (f w)).

(** ** Logging, waiting and host commands *)

(** [log.info(msg)] and [log.debug(msg)]: the record is kept as an event;
    the handlers that print it and append it to the log file of the
    script are not followed. *)
Definition log_info (msg : string) : M unit := modify (emit (EvLog INFO msg)).
Definition log_debug (msg : string) : M unit := modify (emit (EvLog DEBUG msg)).

(** [timer_delay(delay)]: wait with a countdown timer. *)
Definition timer_delay (delay : nat) : M unit := modify (sleep delay).

(** [command.format_map(users)] for a template whose braces are all
    placeholders of [users]. *)
Definition format_map_users (command : string) : string :=
  fold_left (λ s kv, PyStr.replace ("{" ++ kv.1 ++ "}") kv.2 s) users command.

Definition write_file (path content : string) : M unit :=
  modify (set_host_files (insert path content)).

(** [open(path, "a").write(content)] *)
Definition append_file (path content : string) : M unit :=
  modify (set_host_files (λ fs, <[path := default EmptyString (fs !! path) ++ content]> fs)).

Section HostCommands.

Variable rt : Runtime.

(** [check_call(command)]: [subprocess.check_call] raises
    [CalledProcessError] on a non-zero exit status. What the command
    does on the host is not followed. *)
Definition check_call (command : string) : M unit :=
  let command := format_map_users command in
  log_debug ("executing " ++ command) >>
  λ w, match sh_status rt w command with
       | O => (emit (EvExec command) w, Ok tt)
       | S _ => (emit (EvExec command) w, Raise (CalledProcessError command))
       end.

Definition check_output (command : string) : M string :=
  let command := format_map_users command in
  log_debug ("executing " ++ command) >>
  λ w, match sh_status rt w command with
       | O => (emit (EvExec command) w, Ok (sh_output rt w command))
       | S _ => (emit (EvExec command) w, Raise (CalledProcessError command))
       end.

End HostCommands.

(** ** The LXC binding *)

(** Modelled from the spec: the [lxc.Container] binding is a library the
    script imports, not part of it; its calls follow the ContainerRuntime
    contract of section 4.1. A call that reports success has had its
    effect on the registry, a call that reports failure has changed
    nothing, and [get_ips] polls once a second until an address is seen
    or the timeout has elapsed. The changes that commands and services
    make inside a container are not followed: a command run in a
    container is an event of the trace with an exit status. *)
Module c.
Section Binding.

Variable rt : Runtime.

Definition defined (name : string) : M bool := query (λ w, is_defined_in w name).

Definition running (name : string) : M bool := query (λ w, is_running_in w name).

Definition stop (name : string) : M bool := λ w,
  let w1 := emit (EvLxc name OpStop) w in
  if is_running_in w name && lxc_stop_ok rt w name
  then (set_containers (alter (set_running false) name) w1, Ok true)
  else (w1, Ok false).

Definition destroy (name : string) : M bool := λ w,
  let w1 := emit (EvLxc name OpDestroy) w in
  if is_defined_in w name && lxc_destroy_ok rt w name
  then (set_containers (delete name) w1, Ok true)
  else (w1, Ok false).

Definition shutdown (name : string) (seconds : nat) : M bool := λ w,
  let w1 := emit (EvLxc name (OpShutdown seconds)) w in
  if negb (is_running_in w name) then (w1, Ok true)
  else if lxc_shutdown_ok rt w name
  then (set_containers (alter (set_running false) name) w1, Ok true)
  else (sleep seconds w1, Ok false).

Definition start (name : string) : M bool := λ w,
  let w1 := emit (EvLxc name OpStart) w in
  if is_defined_in w name && lxc_start_ok rt w name
  then (set_containers (alter (set_running true) name) w1, Ok true)
  else (w1, Ok false).

Fixpoint poll_ips (name : string) (seconds : nat) (w : World) : World * list string :=
  match lxc_ips rt w name with
  | [] =>
      match seconds with
      | O => (w, [])
      | S k => poll_ips name k (sleep 1 w)
      end
  | ips => (w, ips)
  end.

Definition get_ips (name : string) (seconds : nat) : M (list string) := λ w,
  let '(w1, ips) := poll_ips name seconds (emit (EvLxc name (OpGetIps seconds)) w) in
  (w1, Ok ips).

(** [self.c.clone(target, flags=lxc.LXC_CLONE_SNAPSHOT)] *)
Definition clone (name target : string) : M bool := λ w,
  let w1 := emit (EvLxc name (OpClone target)) w in
  match containers w !! name with
  | Some src =>
      if negb (is_defined_in w target) && lxc_clone_ok rt w name target
      then (set_containers (insert target (snapshot src)) w1, Ok true)
      else (w1, Ok false)
  | None => (w1, Ok false)
  end.

Definition set_config_item (name key value : string) : M unit :=
  modify (λ w, set_containers (alter (set_config_items (insert key value)) name)
                 (emit (EvLxc name (OpSetConfigItem key value)) w)).

Definition save_config (name : string) : M unit :=
  modify (λ w, set_containers (alter save_config_items name)
                 (emit (EvLxc name OpSaveConfig) w)).

(** [self.c.attach_wait(lxc.attach_run_command, shlex.split(command))]:
    the exit status of the command. *)
Definition attach_wait (name command : string) : M nat := λ w,
  (emit (EvLxc name (OpAttachWait command)) w, Ok (lxc_attach_status rt w name command)).

(** [os.path.exists] and [os.remove] on a file below the container's
    [lxc.rootfs], and reading such a file. *)
Definition file (name path : string) : M (option string) :=
  query (λ w, c ← containers w !! name; rootfs c !! path).

Definition remove_file (name path : string) : M unit :=
  modify (set_containers (alter (set_rootfs (delete path)) name)).

End Binding.
End c.

(** ** The container wrapper [SCLXC]

    A handle is the name of its container: [self.c] is looked up in the
    registry at every use, as the script does by fetching a fresh
    [lxc.Container] after every change. *)
Module SCLXC.
Section Methods.

Variable rt : Runtime.

Definition is_defined (self : string) : M bool := c.defined self.

Definition shutdown (self : string) : M unit :=
  let* r := c.running self in
  if r then
    let* ok := c.shutdown rt self timeout in
    if ok then ret tt else raise (RuntimeError ("failed to shutdown " ++ self))
  else ret tt.

(** Make sure that [self] is running and network works. *)
Definition start (self : string) : M unit :=
  let* r := c.running self in
  let* started := (if r then ret true else c.start rt self) in
  if started then
    let* ips := c.get_ips rt self timeout in
    match ips with
    | [] => raise (RuntimeError ("failed to start network in " ++ self))
    | _ :: _ => ret tt
    end
  else raise (RuntimeError ("failed to start " ++ self)).

(** Stop and destroy [self] if it exists. *)
Definition destroy (self : string) : M unit :=
  let* d := c.defined self in
  if d then
    log_info ("destroying " ++ self) >>
    let* r := c.running self in
    let* stopped := (if r then c.stop rt self else ret true) in
    if stopped then
      let* ok := c.destroy rt self in
      if ok then ret tt else raise (RuntimeError ("failed to destroy " ++ self))
    else raise (RuntimeError ("failed to stop " ++ self))
  else log_debug ("not destroying " ++ self ++ " since it is not defined").

(** Run a system command inside the container (the branch of [inside]
    for a [str] command). *)
Definition inside (self command : string) : M unit :=
  start self >>
  let command := format_map_users command in
  log_debug ("executing '" ++ command ++ "' in " ++ self) >>
  let* status := c.attach_wait rt self command in
  match status with
  | O => ret tt
  | S _ => raise (RuntimeError ("failed to execute '" ++ command ++ "'"))
  end.

(** Update OS packages in [self]. *)
Definition update (self : string) : M unit :=
  log_info ("updating packages in " ++ self) >>
  inside self "apt-get update" >>
  inside self "apt-get dist-upgrade -y --auto-remove".

(** Create self, destroy old clone, and create it again. *)
Definition clone (self clone_name : string) (autostart update_first : bool) : M string :=
  let* d := c.defined self in
  if d then
    when update_first (update self) >>
    shutdown self >>
    destroy clone_name >>
    log_info ("cloning " ++ self ++ " to " ++ clone_name) >>
    let* ok := c.clone rt self clone_name in
    if ok then
      when autostart
        (c.set_config_item clone_name "lxc.start.auto" "1" >>
         c.set_config_item clone_name "lxc.start.delay" (PyStr.str_nat start_delay) >>
         c.save_config clone_name) >>
      for_each ["sagecell.log"; "sagecell-console.log"] (λ logfile,
        let* found := c.file clone_name ("/var/log/" ++ logfile) in
        when (bool_decide (is_Some found))
          (c.remove_file clone_name ("/var/log/" ++ logfile))) >>
      ret clone_name
    else raise (RuntimeError ("failed to clone " ++ self))
  else raise (RuntimeError "cannot clone a non-existing container").

(** [save_logs]: the log is the file of that name below the root
    filesystem of the container; it is read as bytes and its two time
    stamps are decoded as they are. The copy is taken to succeed, as it
    does when the two stamps and the name of the container make a file
    name. For a name that is not defined the script asks a handle without
    configuration for its [lxc.rootfs]; the model takes it to find no
    log there. *)
Definition save_logs (self : string) : M unit :=
  let stamp_length := String.length "2014-12-28 15:00:02,315" in
  let* log := c.file self "/var/log/sagecell.log" in
  match log with
  | None => ret tt
  | Some content =>
      let start_stamp := PyStr.take stamp_length content in
      let tail := PyStr.drop (String.length content - 2 ^ 16) content in
      match last (PyStr.readlines tail) with
      | None => raise (IndexError "list index out of range")
      | Some l =>
          let end_stamp := PyStr.take stamp_length l in
          let* found := query (λ w, bool_decide ("container_logs" ∈ host_dirs w)) in
          when (negb found) (modify (add_host_dir "container_logs")) >>
          write_file ("container_logs/" ++ start_stamp ++ " to " ++ end_stamp
                      ++ " on " ++ self) content
      end
  end.

End Methods.
End SCLXC.

(** ** Regenerating the HA-Proxy configuration and the rotation *)

Record Args := mkArgs {
  args_deploy : bool;
  args_nodelay : bool
}.

Definition node_names (suffix : string) : list string :=
  map (λ n, lxcn_prefix ++ PyStr.str_nat n ++ suffix) (seq 0 number_of_compute_nodes).

(** [new_nodes], [old_nodes] and [all_nodes] as the script sets them
    before the rotation; [all_nodes] is never reassigned. *)
Definition nodes_A : list string := node_names "A".
Definition nodes_B : list string := node_names "B".
Definition all_nodes : list string := nodes_A ++ nodes_B.

Definition haproxy_cfg : string := "/etc/haproxy/haproxy.cfg".

Section Rollout.

Variable rt : Runtime.

(** Regenerate HA-Proxy configuration file and restart it. *)
Definition restart_haproxy (all_nodes : list string) : M unit :=
  let* version := check_output rt "haproxy -v" in
  when (PyStr.startswith "HA-Proxy version 1.4" version)
    (log_info "HAProxy is too old, installing from backports" >>
     check_call rt "apt-get install --target-release trusty-backports haproxy") >>
  try_except_CalledProcessError
    (check_call rt ("host " ++ lxcn_sagecell))
    (log_info "making container names resolvable to IP addresses" >>
     append_file "/etc/resolvconf/resolv.conf.d/head" ("nameserver 10.0.3.1" ++ PyStr.nl) >>
     check_call rt "resolvconf -u" >>
     check_call rt ("host " ++ lxcn_sagecell)) >>
  log_debug "generating HAProxy configuration file" >>
  let* nodes := query (λ w, List.filter (is_defined_in w) all_nodes) in
  let* tester := SCLXC.is_defined lxcn_tester in
  write_file haproxy_cfg (haproxy_config nodes tester) >>
  check_call rt "service haproxy reload" >>
  write_file "/etc/cron.d/haproxy"
    ("@reboot root sleep " ++ PyStr.str_nat (start_delay * (length nodes + 2))
     ++ "; service haproxy start" ++ PyStr.nl).

(** The pools of this rotation: [(new_nodes, old_nodes)]. The colours are
    swapped when every node of the first pool is defined. *)
Definition choose_pools : M (list string * list string) :=
  let* full := query (λ w, forallb (is_defined_in w) nodes_A) in
  if full then ret (nodes_B, nodes_A) else ret (nodes_A, nodes_B).

(** [for n in new_nodes: sagecell.clone(n, autostart=True).start()] *)
Definition provision (new_nodes : list string) : M unit :=
  for_each new_nodes (λ n,
    let* clone := SCLXC.clone rt lxcn_sagecell n true false in
    SCLXC.start rt clone).

(** The loop that turns the health check of the old nodes off; its value
    is [need_to_wait]. *)
Fixpoint drain (old_nodes : list string) (need_to_wait : bool) : M bool :=
  match old_nodes with
  | [] => ret need_to_wait
  | n :: rest =>
      let* d := SCLXC.is_defined n in
      if d then SCLXC.inside rt n "/root/healthcheck off" >> drain rest true
      else drain rest need_to_wait
  end.

Definition finalize (old_nodes : list string) : M unit :=
  for_each old_nodes (λ n, SCLXC.save_logs n >> SCLXC.destroy rt n).

(** The statements of the rotation up to and including the first
    regeneration of the HA-Proxy configuration. *)
Definition cutover (new_nodes : list string) : M unit :=
  provision new_nodes >>
  restart_haproxy all_nodes.

(** [timer_delay(start_delay)] after the regeneration. *)
Definition warm_up : M unit :=
  log_info "waiting for new containers to fully initialize..." >>
  timer_delay start_delay.

(** [if need_to_wait and not args.nodelay: ...] *)
Definition wait_for_users (args : Args) (need_to_wait : bool) : M unit :=
  when (need_to_wait && negb (args_nodelay args))
    (log_info "waiting for users to stop working with old containers..." >>
     timer_delay deploy_delay >>
     SCLXC.start rt lxcn_sagecell >>
     SCLXC.shutdown rt lxcn_sagecell).

(** From the wait after the regeneration to the end of the wait for the
    users of the old nodes. *)
Definition draining (args : Args) (old_nodes : list string) : M unit :=
  warm_up >>
  let* need_to_wait := drain old_nodes false in
  wait_for_users args need_to_wait.

(** The statements that follow the regeneration. *)
Definition retire (args : Args) (old_nodes : list string) : M unit :=
  draining args old_nodes >>
  finalize old_nodes.

(** The body of [if args.deploy:]. *)
Definition deploy (args : Args) : M unit :=
  let* pools := choose_pools in
  cutover pools.1 >>
  retire args pools.2.

(** The end of the script, from the assignment of [new_nodes] on: the
    rotation when asked for, then the regeneration of the configuration
    that every run ends with. The statements before it build and update
    the containers base, precell, sagecell, sagecell-backup and sctest;
    they never call [restart_haproxy] and never name a compute node. *)
Definition main (args : Args) : M unit :=
  when (args_deploy args) (deploy args) >>
  restart_haproxy all_nodes.

End Rollout.

(** ** Reading a configuration document back

    These definitions describe the document as HA-Proxy reads it: lines
    are separated by LF, a section runs from its header to the next line
    that starts with a section keyword, and a server line is one whose
    first word is [server]. *)
Module Config.

Fixpoint lines (s : string) : list string :=
  match s with
  | EmptyString => [EmptyString]
  | String ch s' =>
      if Ascii.eqb ch PyStr.LF then EmptyString :: lines s'
      else PyStr.cons_char ch (lines s')
  end.

Fixpoint single_line (s : string) : bool :=
  match s with
  | EmptyString => true
  | String ch s' => negb (Ascii.eqb ch PyStr.LF) && single_line s'
  end.

Definition is_section_header (l : string) : bool :=
  existsb (λ kw, PyStr.startswith kw l) ["global"; "defaults"; "frontend"; "backend"; "listen"].

Fixpoint section_body (ls : list string) : list string :=
  match ls with
  | [] => []
  | l :: ls' => if is_section_header l then [] else l :: section_body ls'
  end.

Fixpoint find_section (header : string) (ls : list string) : list string :=
  match ls with
  | [] => []
  | l :: ls' => if String.eqb l header then section_body ls' else find_section header ls'
  end.

Fixpoint lstrip (s : string) : string :=
  match s with
  | String " " s' => lstrip s'
  | _ => s
  end.

Definition is_server_line (l : string) : bool :=
  PyStr.startswith "server " (lstrip l).

(** The server lines of the section that starts with the line [header]. *)
Definition servers (header cfg : string) : list string :=
  List.filter is_server_line (find_section header (lines cfg)).

Definition static_line (n : string) : string :=
  "    server " ++ n ++ "-static " ++ n ++ ":8889 check".
Definition primary_line (n : string) : string :=
  "    server " ++ n ++ " " ++ n ++ ":8888 cookie " ++ n ++ " check port 9888".
Definition backup_line (n : string) : string :=
  "    server " ++ n ++ "-backup " ++ n ++ ":8888 cookie " ++ n ++ " check backup".

End Config.

(** The parts of the document that do not depend on the nodes. *)
Definition before_static : list string :=
  [HAProxy_header; EmptyString; "frontend http"; "    bind *:80";
   "    use_backend permalink if { path_beg /permalink }";
   "    use_backend static if { path_beg /static }";
   "    use_backend compute"; EmptyString; "backend permalink";
   "    server central sagecell.sagemath.org"; EmptyString; "backend static"].

Definition before_servers : list string :=
  [EmptyString; "backend compute";
   "    cookie  SAGECELL_SERVER insert indirect postonly maxidle 2h";
   "    option httpchk"; EmptyString].

Definition after_servers (tester : bool) : list string :=
  (if tester then [test_section] else []) ++ [HAProxy_stats].


(** ** Scenarios

    Concrete hosts and LXC behaviours on which the rotation is run. *)

(** LXC carries out every call, every container reports an address and
    every command succeeds. *)
Definition rt_ok : Runtime :=
  mkRuntime (λ _ _, true) (λ _ _, true) (λ _ _, true) (λ _ _, true) (λ _ _ _, true)
            (λ _ _, ["10.0.3.2"]) (λ _ _ _, 0) (λ _ _, 0) (λ _ _, "HA-Proxy version 1.5").

(** As [rt_ok], but the container [name] never reports an address. *)
Definition rt_no_network (name : string) : Runtime :=
  mkRuntime (λ _ _, true) (λ _ _, true) (λ _ _, true) (λ _ _, true) (λ _ _ _, true)
            (λ _ n, if String.eqb n name then [] else ["10.0.3.2"])
            (λ _ _ _, 0) (λ _ _, 0) (λ _ _, "HA-Proxy version 1.5").



Definition stopped_container : Container := mkContainer false ∅ ∅ ∅.

Definition serving_container : Container :=
  mkContainer true ∅ ∅
    (<["/var/log/sagecell.log" :=
         "2014-12-28 15:00:02,315 started" ++ PyStr.nl
         ++ "2014-12-29 09:30:00,001 served" ++ PyStr.nl]> ∅).

(** The master is defined and stopped, the nodes of pool B serve and no
    node of pool A is defined. *)
Definition host_with_B_live : World :=
  mkWorld (list_to_map [("sagecell", stopped_container);
                        ("sc-0B", serving_container);
                        ("sc-1B", serving_container);
                        ("sc-2B", serving_container)])
          ∅ ∅ 0 [].

Definition deploy_args : Args := mkArgs true false.




(** As [host_with_B_live], with the configuration that routes to the
    nodes of pool B. *)
Definition host_serving_B : World :=
  set_host_files (insert haproxy_cfg (haproxy_config nodes_B false)) host_with_B_live.


(** ** Vocabulary of the properties *)

Local Open Scope list_scope.

(** A statement keeps a relation between the states of the host when the
    state it leaves is related to the state it started in, whether it
    returns or raises. *)
Definition keeps {A} (R : relation World) (m : M A) : Prop :=
  ∀ w, R w (m w).1.

(** The relations the rotation is followed with: the whole registry is
    unchanged; the same names are defined; the containers outside the
    names of [S] are unchanged; the files of the host are unchanged. *)
Definition same_registry : relation World :=
  λ w w', containers w' = containers w.

Definition same_defined : relation World :=
  λ w w', ∀ n, is_defined_in w' n = is_defined_in w n.

Definition same_outside (S : list string) : relation World :=
  λ w w', ∀ n, n ∉ S → containers w' !! n = containers w !! n.

Definition same_host_files : relation World :=
  λ w w', host_files w' = host_files w.

(** What a relation has to tolerate for the statements of the script to
    keep it: [Quiet] relations ignore log records, host commands and the
    clock, [Alters R name] also ignores calls into LXC on the container
    [name] and changes inside it, [Touches R name] also ignores its
    removal and creation, and [HostWrites] relations ignore the files of
    the host. *)
Class Quiet (R : relation World) : Prop := {
  #[global] quiet_preorder :: PreOrder R;
  quiet_log lvl msg w : R w (emit (EvLog lvl msg) w);
  quiet_exec command w : R w (emit (EvExec command) w);
  quiet_sleep d w : R w (sleep d w)
}.

Class Alters (R : relation World) (name : string) : Prop := {
  #[global] alters_quiet :: Quiet R;
  alters_call op w : R w (emit (EvLxc name op) w);
  alters_alter f w : R w (set_containers (alter f name) w)
}.

Class Touches (R : relation World) (name : string) : Prop := {
  #[global] touches_alters :: Alters R name;
  touches_delete w : R w (set_containers (delete name) w);
  touches_insert c w : R w (set_containers (insert name c) w)
}.

Class HostWrites (R : relation World) : Prop := {
  #[global] host_writes_quiet :: Quiet R;
  host_writes_files f w : R w (set_host_files f w);
  host_writes_dir d w : R w (add_host_dir d w)
}.

(** The length of the message of a [RuntimeError] result. *)
Definition message_length {A} (r : World * result A) : nat :=
  match r.2 with
  | Raise (RuntimeError msg) => String.length msg
  | _ => 0
  end.

(** The container [clone] leaves under the new name, from the state [src]
    of the source at the time of the snapshot. *)
Definition fresh_clone (autostart : bool) (src : Container) : Container :=
  let items :=
    if autostart
    then <["lxc.start.delay" := PyStr.str_nat start_delay]>
           (<["lxc.start.auto" := "1"]> (saved_config src))
    else saved_config src in
  mkContainer false items items
    (delete "/var/log/sagecell-console.log"
       (delete "/var/log/sagecell.log" (rootfs src))).

(** The statements of [clone] that follow a successful snapshot. *)
Definition after_snapshot (clone_name : string) (autostart : bool) : M string :=
  when autostart
    (c.set_config_item clone_name "lxc.start.auto" "1" >>
     c.set_config_item clone_name "lxc.start.delay" (PyStr.str_nat start_delay) >>
     c.save_config clone_name) >>
  for_each ["sagecell.log"; "sagecell-console.log"] (λ logfile,
    let* found := c.file clone_name ("/var/log/" +:+ logfile) in
    when (bool_decide (is_Some found))
      (c.remove_file clone_name ("/var/log/" +:+ logfile))) >>
  ret clone_name.

(** The trace only grows. *)
Definition trace_extends : relation World :=
  λ w w', ∃ evs, trace w' = evs ++ trace w.

(** The calls into LXC that were added to the trace all name containers
    of [S]. *)
Definition lxc_calls_within (S : list string) : relation World :=
  λ w w', ∃ evs, trace w' = evs ++ trace w ∧ ∀ n op, EvLxc n op ∈ evs → n ∈ S.

(** What the two pools of a rotation always satisfy. *)
Record pools_ok (new_nodes old_nodes : list string) : Prop := {
  pools_new_NoDup : NoDup new_nodes;
  pools_old_NoDup : NoDup old_nodes;
  pools_new_not_master : lxcn_sagecell ∉ new_nodes;
  pools_old_not_master : lxcn_sagecell ∉ old_nodes;
  pools_disjoint : ∀ n, n ∈ new_nodes → n ∉ old_nodes;
  pools_all : ∀ n, n ∈ all_nodes ↔ n ∈ new_nodes ∨ n ∈ old_nodes
}.


(** ** Vocabulary of the further properties *)

(** The files of the host other than those of [paths] are unchanged. *)
Definition host_files_outside (paths : list string) : relation World :=
  λ w w', ∀ p, p ∉ paths → host_files w' !! p = host_files w !! p.

Definition resolv_head : string := "/etc/resolvconf/resolv.conf.d/head".
Definition cron_haproxy : string := "/etc/cron.d/haproxy".

(** The statements of [restart_haproxy] from the generation of the
    document on. *)
Definition publish (rt : Runtime) (all_nodes : list string) : M unit :=
  log_debug "generating HAProxy configuration file" >>
  let* nodes := query (λ w, List.filter (is_defined_in w) all_nodes) in
  let* tester := SCLXC.is_defined lxcn_tester in
  write_file haproxy_cfg (haproxy_config nodes tester) >>
  check_call rt "service haproxy reload" >>
  write_file "/etc/cron.d/haproxy"
    ("@reboot root sleep " +:+ PyStr.str_nat (start_delay * (length nodes + 2))
     +:+ "; service haproxy start" +:+ PyStr.nl).

(** As [rt_ok], but the host command [command] exits with status 1. *)
Definition rt_host_command_fails (command : string) : Runtime :=
  mkRuntime (λ _ _, true) (λ _ _, true) (λ _ _, true) (λ _ _, true) (λ _ _ _, true)
            (λ _ _, ["10.0.3.2"]) (λ _ _ _, 0)
            (λ _ cmd, if String.eqb cmd command then 1 else 0)
            (λ _ _, "HA-Proxy version 1.5").

(** As [rt_ok], but the container [name] does not shut down within the
    time it is given. *)
Definition rt_shutdown_fails (name : string) : Runtime :=
  mkRuntime (λ _ _, true) (λ _ _, true) (λ _ n, negb (String.eqb n name)) (λ _ _, true)
            (λ _ _ _, true) (λ _ _, ["10.0.3.2"]) (λ _ _ _, 0) (λ _ _, 0)
            (λ _ _, "HA-Proxy version 1.5").

(** As [rt_ok], but LXC fails to stop the container [name]. *)
Definition rt_stop_fails (name : string) : Runtime :=
  mkRuntime (λ _ n, negb (String.eqb n name)) (λ _ _, true) (λ _ _, true) (λ _ _, true)
            (λ _ _ _, true) (λ _ _, ["10.0.3.2"]) (λ _ _ _, 0) (λ _ _, 0)
            (λ _ _, "HA-Proxy version 1.5").

(** A container that is defined and stopped and whose log is the file
    [log]. *)
Definition container_with_log (log : string) : Container :=
  mkContainer false ∅ ∅ (<["/var/log/sagecell.log" := log]> ∅).

(** The path of the log of SageCell below the root of a container, and
    the length of a time stamp of that log. *)
Definition sagecell_log : string := "/var/log/sagecell.log".
Definition stamp_length : nat := String.length "2014-12-28 15:00:02,315".






(** Whether a string can be part of the name of a file: printable ASCII
    characters other than the slash. *)
Definition name_char (ch : ascii) : bool :=
  let n := Ascii.nat_of_ascii ch in
  ((32 <=? n) && (n <? 127) && negb (n =? 47))%nat.

Definition plain_name (s : string) : bool :=
  forallb name_char (list_ascii_of_string s).

(** The clock of the script never runs backwards. *)
Definition clock_advances : relation World :=
  λ w w', (clock w ≤ clock w')%nat.

(** ** The master, its backup and the tester *)




(** [sagecell.clone(lxcn_tester, autostart=True).start()], the statement
    of [--tester]. *)
Definition rebuild_tester (rt : Runtime) : M unit :=
  let* tester := SCLXC.clone rt lxcn_sagecell lxcn_tester true false in
  SCLXC.start rt tester.

(** ** Accounts of the host *)

(** The group and password databases of the host as [grp.getgrnam] and
    [pwd.getpwnam] read them: the id of a group, and the user and group
    ids of a user; [None] where the lookup raises [KeyError]. The
    answers may depend on what has been run. *)
Record Accounts := mkAccounts {
  getgrnam : World → string → option nat;
  getpwnam : World → string → option (nat * nat)
}.

(** [users[key]] *)
Definition users_get (key : string) : string :=
  default EmptyString ((list_to_map users : gmap string string) !! key).

(** [id == users[key]] for a numeric entry of [users], which the mapping
    holds as the text it formats to. *)
Definition id_is (id : nat) (key : string) : bool :=
  String.eqb (PyStr.str_nat id) (users_get key).

(** The inner [try] of [create_host_users]: the three lookups succeed
    and no id differs from the expected one. *)
Definition accounts_as_expected (db : Accounts) (w : World) : bool :=
  match getgrnam db w (users_get "group"),
        getpwnam db w (users_get "server"),
        getpwnam db w (users_get "worker") with
  | Some g, Some s, Some wk =>
      negb (negb (id_is g "GID")
            || negb (id_is s.1 "server_ID") || negb (id_is s.2 "GID")
            || negb (id_is wk.1 "worker_ID") || negb (id_is wk.2 "GID"))
  | _, _, _ => false
  end.

(** Create host users if necessary; if users exist (from previous runs),
    check that they are as expected. *)
Definition create_host_users (rt : Runtime) (db : Accounts) : M unit :=
  log_info "creating users on the host" >>
  try_except_CalledProcessError
    (check_call rt "addgroup --gid {GID} {group}" >>
     check_call rt ("adduser --uid {server_ID} --ingroup {group} --gecos '' "
                    +:+ "--disabled-password --no-create-home {server}") >>
     check_call rt ("adduser --uid {worker_ID} --ingroup {group} --gecos '' "
                    +:+ "--disabled-password --no-create-home {worker}"))
    (let* ok := query (accounts_as_expected db) in
     if ok then ret tt
     else raise (RuntimeError "failed to create accounts on host")).

(** Accounts that exist with the expected ids. *)
#[warnings="-abstract-large-number"] Definition accounts_present : Accounts :=
  mkAccounts (λ _ name, if String.eqb name "sagecell" then Some 8888 else None)
             (λ _ name, if String.eqb name "sc_serv" then Some (8888, 8888)
                        else if String.eqb name "sc_work" then Some (9999, 8888)
                        else None).

(** * Properties *)

(** ** The configuration document *)

Module ConfigFacts.
Import Config.

Lemma lines_not_nil s : lines s ≠ [].
Proof.
  destruct s as [|ch s]; simpl; [done|].
  destruct (Ascii.eqb ch PyStr.LF); [done|].
  destruct (lines s); done.
Qed.

Lemma lines_append_nl a b : lines (a +:+ String PyStr.LF b) = lines a ++ lines b.
Proof.
  induction a as [|ch a IH]; simpl.
  - reflexivity.
  - destruct (Ascii.eqb ch PyStr.LF); rewrite IH; [done|].
    pose proof (lines_not_nil a). by destruct (lines a).
Qed.

Lemma lines_single_line s : single_line s = true → lines s = [s].
Proof.
  induction s as [|ch s IH]; simpl; [done|].
  destruct (Ascii.eqb ch PyStr.LF); simpl; [done|].
  intros H. by rewrite IH.
Qed.

Lemma lines_join (l : list string) :
  l ≠ [] → lines (PyStr.join PyStr.nl l) = concat (map lines l).
Proof.
  induction l as [|x [|y l] IH]; intros Hne; [done| |].
  - simpl. by rewrite app_nil_r.
  - change (PyStr.join PyStr.nl (x :: y :: l))
      with (x +:+ String PyStr.LF (PyStr.join PyStr.nl (y :: l))).
    rewrite lines_append_nl, IH by done. done.
Qed.

Lemma single_line_append a b :
  single_line (a +:+ b) = single_line a && single_line b.
Proof.
  induction a as [|ch a IH]; simpl; [done|]. rewrite IH. by rewrite andb_assoc.
Qed.

Lemma lines_join_map (f : string → string) (nodes : list string) :
  nodes ≠ [] →
  (∀ n, n ∈ nodes → single_line (f n) = true) →
  lines (PyStr.join PyStr.nl (map f nodes)) = map f nodes.
Proof.
  intros Hne Hf. rewrite lines_join by (by destruct nodes).
  clear Hne. induction nodes as [|n nodes IH]; [done|].
  simpl. rewrite lines_single_line by (apply Hf; left).
  simpl. f_equal. apply IH. intros m Hm. apply Hf. by right.
Qed.

Lemma find_section_skip header pre rest :
  forallb (λ l, negb (String.eqb l header)) pre = true →
  find_section header (pre ++ rest) = find_section header rest.
Proof.
  induction pre as [|l pre IH]; simpl; [done|].
  destruct (String.eqb l header); simpl; [done|]. apply IH.
Qed.

Lemma section_body_skip pre rest :
  forallb (λ l, negb (is_section_header l)) pre = true →
  section_body (pre ++ rest) = pre ++ section_body rest.
Proof.
  induction pre as [|l pre IH]; simpl; [done|].
  destruct (is_section_header l); simpl; [done|]. intros H. by rewrite IH.
Qed.

Lemma forallb_map_const {A} (p : string → bool) (f : A → string) (l : list A) :
  (∀ x, p (f x) = true) → forallb p (map f l) = true.
Proof. intros H. induction l; simpl; [done|]. by rewrite H, IHl. Qed.

Lemma filter_map_all {A} (p : string → bool) (f : A → string) (l : list A) :
  (∀ x, p (f x) = true) → List.filter p (map f l) = map f l.
Proof. intros H. induction l; simpl; [done|]. by rewrite H, IHl. Qed.

End ConfigFacts.


(** The lines of the template for normal traffic, and what the loop over
    them appends for the nodes. *)
Lemma main_section_lines :
  PyStr.splitlines main_section =
  [EmptyString; "frontend http"; "    bind *:80";
   "    use_backend permalink if { path_beg /permalink }";
   "    use_backend static if { path_beg /static }";
   "    use_backend compute"; EmptyString; "backend permalink";
   "    server central sagecell.sagemath.org"; EmptyString; "backend static";
   "    server {node}-static {node}:8889 check"; EmptyString; "backend compute";
   "    cookie  SAGECELL_SERVER insert indirect postonly maxidle 2h";
   "    option httpchk"; EmptyString;
   "    server {node} {node}:8888 cookie {node} check port 9888";
   "    server {node}-backup {node}:8888 cookie {node} check backup"].
Proof. vm_compute. reflexivity. Qed.

Lemma main_section_expanded nodes :
  map (expand_line nodes) (PyStr.splitlines main_section) =
  [EmptyString; "frontend http"; "    bind *:80";
   "    use_backend permalink if { path_beg /permalink }";
   "    use_backend static if { path_beg /static }";
   "    use_backend compute"; EmptyString; "backend permalink";
   "    server central sagecell.sagemath.org"; EmptyString; "backend static";
   PyStr.join PyStr.nl (map Config.static_line nodes);
   EmptyString; "backend compute";
   "    cookie  SAGECELL_SERVER insert indirect postonly maxidle 2h";
   "    option httpchk"; EmptyString;
   PyStr.join PyStr.nl (map Config.primary_line nodes);
   PyStr.join PyStr.nl (map Config.backup_line nodes)].
Proof. rewrite main_section_lines. reflexivity. Qed.

Lemma haproxy_lines_nonempty nodes tester :
  nodes ≠ [] →
  haproxy_lines nodes tester =
  [HAProxy_header] ++ map (expand_line nodes) (PyStr.splitlines main_section)
  ++ (if tester then [test_section] else []) ++ [HAProxy_stats].
Proof. by destruct nodes. Qed.

Lemma single_line_static_line n :
  Config.single_line n = true → Config.single_line (Config.static_line n) = true.
Proof.
  intros Hn. unfold Config.static_line.
  rewrite !ConfigFacts.single_line_append, !Hn. reflexivity.
Qed.

Lemma single_line_primary_line n :
  Config.single_line n = true → Config.single_line (Config.primary_line n) = true.
Proof.
  intros Hn. unfold Config.primary_line.
  rewrite !ConfigFacts.single_line_append, !Hn. reflexivity.
Qed.

Lemma single_line_backup_line n :
  Config.single_line n = true → Config.single_line (Config.backup_line n) = true.
Proof.
  intros Hn. unfold Config.backup_line.
  rewrite !ConfigFacts.single_line_append, !Hn. reflexivity.
Qed.

Lemma haproxy_lines_split nodes tester :
  nodes ≠ [] →
  haproxy_lines nodes tester =
  before_static
  ++ [PyStr.join PyStr.nl (map Config.static_line nodes)]
  ++ before_servers
  ++ [PyStr.join PyStr.nl (map Config.primary_line nodes)]
  ++ [PyStr.join PyStr.nl (map Config.backup_line nodes)]
  ++ after_servers tester.
Proof.
  intros Hne. rewrite haproxy_lines_nonempty, main_section_expanded by done.
  cbn [app before_static before_servers]. unfold after_servers. reflexivity.
Qed.

Lemma config_lines nodes tester :
  nodes ≠ [] →
  Forall (λ n, Config.single_line n = true) nodes →
  Config.lines (haproxy_config nodes tester) =
  concat (map Config.lines before_static)
  ++ map Config.static_line nodes
  ++ before_servers
  ++ map Config.primary_line nodes
  ++ map Config.backup_line nodes
  ++ concat (map Config.lines (after_servers tester)).
Proof.
  intros Hne Hnodes. rewrite Forall_forall in Hnodes.
  unfold haproxy_config. rewrite haproxy_lines_split by done.
  rewrite ConfigFacts.lines_join by (clear; unfold before_static; discriminate).
  rewrite !map_app, !concat_app. cbn [map concat].
  rewrite (ConfigFacts.lines_join_map Config.static_line nodes)
    by (first [exact Hne | intros n Hn; apply single_line_static_line, Hnodes, Hn]).
  rewrite (ConfigFacts.lines_join_map Config.primary_line nodes)
    by (first [exact Hne | intros n Hn; apply single_line_primary_line, Hnodes, Hn]).
  rewrite (ConfigFacts.lines_join_map Config.backup_line nodes)
    by (first [exact Hne | intros n Hn; apply single_line_backup_line, Hnodes, Hn]).
  rewrite !app_nil_r.
  replace (concat (map Config.lines before_servers)) with before_servers
    by (vm_compute; reflexivity).
  reflexivity.
Qed.

Lemma find_section_here header l ls :
  String.eqb l header = true →
  Config.find_section header (l :: ls) = Config.section_body ls.
Proof. intros H. simpl. by rewrite H. Qed.

Lemma find_section_next header l ls :
  String.eqb l header = false →
  Config.find_section header (l :: ls) = Config.find_section header ls.
Proof. intros H. simpl. by rewrite H. Qed.

Lemma section_body_cons l ls :
  Config.is_section_header l = false →
  Config.section_body (l :: ls) = l :: Config.section_body ls.
Proof. intros H. simpl. by rewrite H. Qed.

Lemma filter_drop {A} (p : A → bool) x l :
  p x = false → List.filter p (x :: l) = List.filter p l.
Proof. intros H. simpl. by rewrite H. Qed.

Lemma section_body_after_servers tester :
  Config.section_body (concat (map Config.lines (after_servers tester)))
  = [EmptyString].
Proof. destruct tester; vm_compute; reflexivity. Qed.

(** C8: for a non-empty list of k node names, none of which contains a
    line feed, the [backend compute] section of the generated
    configuration has exactly 2k server lines: the k primary lines of the
    nodes in order, then their k backup lines, each pointing at the node
    of its primary line. *)
Theorem compute_backend_two_lines_per_node (nodes : list string) (tester : bool) :
  nodes ≠ [] →
  Forall (λ n, Config.single_line n = true) nodes →
  Config.servers "backend compute" (haproxy_config nodes tester)
    = map Config.primary_line nodes ++ map Config.backup_line nodes
  ∧ length (Config.servers "backend compute" (haproxy_config nodes tester))
    = 2 * length nodes.
Proof.
  intros Hne Hnodes.
  assert (Config.servers "backend compute" (haproxy_config nodes tester)
          = map Config.primary_line nodes ++ map Config.backup_line nodes) as ->.
  2: { split; [reflexivity|]. rewrite length_app, !length_map. lia. }
  unfold Config.servers. rewrite config_lines by done.
  rewrite ConfigFacts.find_section_skip by (vm_compute; reflexivity).
  rewrite ConfigFacts.find_section_skip
    by (apply ConfigFacts.forallb_map_const; intros; reflexivity).
  unfold before_servers. cbn [app].
  rewrite find_section_next by reflexivity.
  rewrite find_section_here by reflexivity.
  rewrite !section_body_cons by reflexivity.
  rewrite !ConfigFacts.section_body_skip
    by (apply ConfigFacts.forallb_map_const; intros; reflexivity).
  rewrite section_body_after_servers.
  rewrite !filter_drop by reflexivity.
  rewrite !List.filter_app.
  rewrite !ConfigFacts.filter_map_all by (intros; reflexivity).
  change (List.filter Config.is_server_line [EmptyString]) with (@nil string).
  by rewrite !app_nil_r.
Qed.

Lemma compute_backend_two_lines_per_node_witness :
  Config.servers "backend compute" (haproxy_config ["sc-0A"; "sc-1A"; "sc-2A"] true)
  = map Config.primary_line ["sc-0A"; "sc-1A"; "sc-2A"]
    ++ map Config.backup_line ["sc-0A"; "sc-1A"; "sc-2A"]
  ∧ length (Config.servers "backend compute"
              (haproxy_config ["sc-0A"; "sc-1A"; "sc-2A"] true)) = 2 * 3.
Proof.
  apply (compute_backend_two_lines_per_node ["sc-0A"; "sc-1A"; "sc-2A"] true).
  - discriminate.
  - repeat constructor.
Defined.

(** ** Running statements *)

Lemma bind_Ok {A B} (m : M A) (k : A → M B) w w1 a :
  m w = (w1, Ok a) → bind m k w = k a w1.
Proof. intros H. unfold bind. by rewrite H. Qed.

Lemma bind_Raise {A B} (m : M A) (k : A → M B) w w1 e :
  m w = (w1, Raise e) → bind m k w = (w1, Raise e).
Proof. intros H. unfold bind. by rewrite H. Qed.

Lemma bind_Ok_inv {A B} (m : M A) (k : A → M B) w w' b :
  bind m k w = (w', Ok b) → ∃ w1 a, m w = (w1, Ok a) ∧ k a w1 = (w', Ok b).
Proof.
  unfold bind. destruct (m w) as [w1 [a|e]]; intros H; [eauto|discriminate].
Qed.


Section Keeps.

Context (R : relation World) `{!PreOrder R}.

Lemma keeps_ret {A} (a : A) : keeps R (ret a).
Proof. intros w. simpl. reflexivity. Qed.

Lemma keeps_raise {A} e : keeps R (raise (A:=A) e).
Proof. intros w. simpl. reflexivity. Qed.

Lemma keeps_query {A} (f : World → A) : keeps R (query f).
Proof. intros w. simpl. reflexivity. Qed.

Lemma keeps_bind {A B} (m : M A) (k : A → M B) :
  keeps R m → (∀ a, keeps R (k a)) → keeps R (bind m k).
Proof.
  intros Hm Hk w. unfold bind. specialize (Hm w).
  destruct (m w) as [w1 [a|e]]; simpl in *; [|done].
  etrans; [exact Hm|apply Hk].
Qed.

Lemma keeps_when c (body : M unit) : keeps R body → keeps R (when c body).
Proof. destruct c; simpl; [done|]. intros _. apply keeps_ret. Qed.

Lemma keeps_for_each {A} (l : list A) (body : A → M unit) :
  (∀ x, x ∈ l → keeps R (body x)) → keeps R (for_each l body).
Proof.
  induction l as [|x l IH]; intros H; simpl; [apply keeps_ret|].
  apply keeps_bind; [apply H; left|]. intros _. apply IH.
  intros y Hy. apply H. by right.
Qed.

Lemma keeps_try_except (body handler : M unit) :
  keeps R body → keeps R handler →
  keeps R (try_except_CalledProcessError body handler).
Proof.
  intros Hb Hh w. unfold try_except_CalledProcessError. specialize (Hb w).
  destruct (body w) as [w1 [a|[]]]; simpl in *; try done.
  etrans; [exact Hb|apply Hh].
Qed.

Lemma keeps_modify (f : World → World) : (∀ w, R w (f w)) → keeps R (modify f).
Proof. intros H w. apply H. Qed.

End Keeps.

Lemma keeps_result {A} (R : relation World) (m : M A) w w' r :
  keeps R m → m w = (w', r) → R w w'.
Proof. intros H E. specialize (H w). by rewrite E in H. Qed.

Global Instance same_registry_preorder : PreOrder same_registry.
Proof. split; [done|]. intros w1 w2 w3 H1 H2. unfold same_registry in *. congruence. Qed.

Global Instance same_defined_preorder : PreOrder same_defined.
Proof.
  split; [done|]. intros w1 w2 w3 H1 H2 n. by rewrite H2, H1.
Qed.

Global Instance same_outside_preorder S : PreOrder (same_outside S).
Proof.
  split; [done|]. intros w1 w2 w3 H1 H2 n Hn. by rewrite H2, H1.
Qed.

Global Instance same_host_files_preorder : PreOrder same_host_files.
Proof. split; [done|]. intros w1 w2 w3 H1 H2. unfold same_host_files in *. congruence. Qed.

Lemma is_defined_in_alter f name w n :
  is_defined_in (set_containers (alter f name) w) n = is_defined_in w n.
Proof.
  unfold is_defined_in. simpl. apply bool_decide_ext.
  rewrite lookup_alter. case_decide; [|done]. subst. by rewrite fmap_is_Some.
Qed.

Global Instance same_registry_quiet : Quiet same_registry.
Proof. by split; [apply _|..]. Qed.
Global Instance same_defined_quiet : Quiet same_defined.
Proof. by split; [apply _|..]. Qed.
Global Instance same_outside_quiet S : Quiet (same_outside S).
Proof. by split; [apply _|..]. Qed.
Global Instance same_host_files_quiet : Quiet same_host_files.
Proof. by split; [apply _|..]. Qed.

Global Instance same_registry_host_writes : HostWrites same_registry.
Proof. by split; [apply _|..]. Qed.
Global Instance same_defined_host_writes : HostWrites same_defined.
Proof. by split; [apply _|..]. Qed.
Global Instance same_outside_host_writes S : HostWrites (same_outside S).
Proof. by split; [apply _|..]. Qed.

Global Instance same_defined_alters name : Alters same_defined name.
Proof. split; [apply _|done|]. intros f w n. apply is_defined_in_alter. Qed.



Global Instance same_host_files_touches name : Touches same_host_files name.
Proof. by split; [split; [apply _|..]|..]. Qed.

Lemma same_outside_touches S name : name ∈ S → Touches (same_outside S) name.
Proof.
  intros HS. split; [split; [apply _|done|]|..].
  - intros f w n Hn. simpl. apply lookup_alter_ne. by intros ->.
  - intros w n Hn. simpl. apply lookup_delete_ne. by intros ->.
  - intros c0 w n Hn. simpl. apply lookup_insert_ne. by intros ->.
Qed.

(** One step of a proof that a primitive keeps a relation: peel the
    outermost change off the state that was reached. *)
Ltac world_step :=
  lazymatch goal with
  | |- ?R ?w ?w => reflexivity
  | |- ?R ?w (emit ?e ?w1) =>
      transitivity w1;
      [|first [apply quiet_log | apply quiet_exec | apply alters_call]]
  | |- ?R ?w (sleep ?d ?w1) => transitivity w1; [|apply quiet_sleep]
  | |- ?R ?w (set_containers (alter ?f ?n) ?w1) =>
      transitivity w1; [|apply alters_alter]
  | |- ?R ?w (set_containers (delete ?n) ?w1) =>
      transitivity w1; [|apply touches_delete]
  | |- ?R ?w (set_containers (insert ?n ?c0) ?w1) =>
      transitivity w1; [|apply touches_insert]
  | |- ?R ?w (set_host_files ?f ?w1) =>
      transitivity w1; [|apply host_writes_files]
  | |- ?R ?w (add_host_dir ?d ?w1) =>
      transitivity w1; [|apply host_writes_dir]
  end.

Ltac primitive :=
  let w := fresh "w" in
  intros w; simpl; repeat case_match; simpl; repeat world_step.

Section Frames.

Variable rt : Runtime.
Variable R : relation World.

Lemma log_info_keeps `{!Quiet R} msg : keeps R (log_info msg).
Proof. primitive. Qed.

Lemma log_debug_keeps `{!Quiet R} msg : keeps R (log_debug msg).
Proof. primitive. Qed.

Lemma timer_delay_keeps `{!Quiet R} d : keeps R (timer_delay d).
Proof. primitive. Qed.

Lemma write_file_keeps `{!HostWrites R} path content : keeps R (write_file path content).
Proof. primitive. Qed.

Lemma append_file_keeps `{!HostWrites R} path content : keeps R (append_file path content).
Proof. primitive. Qed.

Lemma check_call_keeps `{!Quiet R} command : keeps R (check_call rt command).
Proof.
  unfold check_call. apply keeps_bind; [apply _|apply log_debug_keeps|].
  intros _. primitive.
Qed.

Lemma check_output_keeps `{!Quiet R} command : keeps R (check_output rt command).
Proof.
  unfold check_output. apply keeps_bind; [apply _|apply log_debug_keeps|].
  intros _. primitive.
Qed.

Lemma c_stop_keeps name `{!Alters R name} : keeps R (c.stop rt name).
Proof. unfold c.stop. primitive. Qed.

Lemma c_shutdown_keeps name `{!Alters R name} d : keeps R (c.shutdown rt name d).
Proof. unfold c.shutdown. primitive. Qed.

Lemma c_start_keeps name `{!Alters R name} : keeps R (c.start rt name).
Proof. unfold c.start. primitive. Qed.

Lemma c_destroy_keeps name `{!Touches R name} : keeps R (c.destroy rt name).
Proof. unfold c.destroy. primitive. Qed.

Lemma c_clone_keeps name target `{!Alters R name} `{!Touches R target} :
  keeps R (c.clone rt name target).
Proof. unfold c.clone. primitive. Qed.

Lemma c_set_config_item_keeps name key value `{!Alters R name} :
  keeps R (c.set_config_item name key value).
Proof. unfold c.set_config_item. primitive. Qed.

Lemma c_save_config_keeps name `{!Alters R name} : keeps R (c.save_config name).
Proof. unfold c.save_config. primitive. Qed.

Lemma c_remove_file_keeps name path `{!Alters R name} : keeps R (c.remove_file name path).
Proof. unfold c.remove_file. primitive. Qed.

Lemma c_attach_wait_keeps name command `{!Alters R name} :
  keeps R (c.attach_wait rt name command).
Proof. unfold c.attach_wait. primitive. Qed.

Lemma poll_ips_keeps `{!Quiet R} name seconds w :
  R w (c.poll_ips rt name seconds w).1.
Proof.
  revert w. induction seconds as [|k IH]; intros w; simpl.
  - destruct (lxc_ips rt w name); simpl; reflexivity.
  - destruct (lxc_ips rt w name); simpl; [|reflexivity].
    etrans; [|apply IH]. apply quiet_sleep.
Qed.

Lemma c_get_ips_keeps name seconds `{!Alters R name} :
  keeps R (c.get_ips rt name seconds).
Proof.
  intros w. unfold c.get_ips.
  pose proof (poll_ips_keeps name seconds (emit (EvLxc name (OpGetIps seconds)) w)) as H.
  destruct (c.poll_ips _ _ _ _) as [w1 ips]. simpl in *.
  etrans; [|exact H]. apply alters_call.
Qed.

End Frames.

Create HintDb keeps discriminated.

#[global] Hint Resolve log_info_keeps log_debug_keeps timer_delay_keeps
  write_file_keeps append_file_keeps check_call_keeps check_output_keeps
  c_stop_keeps c_shutdown_keeps c_start_keeps c_destroy_keeps c_clone_keeps
  c_set_config_item_keeps c_save_config_keeps c_remove_file_keeps
  c_attach_wait_keeps c_get_ips_keeps : keeps.
#[global] Hint Extern 1 (Quiet _) => apply _ : keeps.
#[global] Hint Extern 1 (Alters _ _) => apply _ : keeps.
#[global] Hint Extern 1 (Touches _ _) => apply _ : keeps.
#[global] Hint Extern 1 (HostWrites _) => apply _ : keeps.

(** Follow the structure of a statement down to its primitives. *)
Ltac keeps_step :=
  lazymatch goal with
  | |- keeps _ (bind _ _) => apply keeps_bind; [apply _| |intros ?]
  | |- keeps _ (ret _) => apply keeps_ret; apply _
  | |- keeps _ (raise _) => apply keeps_raise; apply _
  | |- keeps _ (query _) => apply keeps_query; apply _
  | |- keeps _ (when _ _) => apply keeps_when; [apply _|]
  | |- keeps _ (try_except_CalledProcessError _ _) =>
      apply keeps_try_except; [apply _| |]
  | |- keeps _ (if ?b then _ else _) => destruct b
  | |- keeps _ (match ?x with _ => _ end) => destruct x
  end.

Ltac keeps_tac := repeat keeps_step; eauto with keeps.

Section MethodFrames.

Variable rt : Runtime.
Variable R : relation World.

Lemma shutdown_keeps self `{!Alters R self} : keeps R (SCLXC.shutdown rt self).
Proof. unfold SCLXC.shutdown, c.running. keeps_tac. Qed.

Lemma start_keeps self `{!Alters R self} : keeps R (SCLXC.start rt self).
Proof. unfold SCLXC.start, c.running. keeps_tac. Qed.

Lemma destroy_keeps self `{!Touches R self} : keeps R (SCLXC.destroy rt self).
Proof. unfold SCLXC.destroy, c.running, c.defined. keeps_tac. Qed.

Lemma inside_keeps self command `{!Alters R self} :
  keeps R (SCLXC.inside rt self command).
Proof.
  unfold SCLXC.inside. keeps_tac. apply start_keeps, _.
Qed.

Lemma update_keeps self `{!Alters R self} : keeps R (SCLXC.update rt self).
Proof. unfold SCLXC.update. keeps_tac; apply inside_keeps, _. Qed.

Lemma clone_keeps self clone_name autostart update_first
    `{!Alters R self} `{!Touches R clone_name} :
  keeps R (SCLXC.clone rt self clone_name autostart update_first).
Proof.
  unfold SCLXC.clone, c.defined. keeps_tac.
  - apply update_keeps, _.
  - apply shutdown_keeps, _.
  - apply destroy_keeps, _.
  - apply keeps_for_each; [apply _|]. intros logfile _.
    unfold c.file. keeps_tac.
Qed.

Lemma save_logs_keeps self `{!HostWrites R} : keeps R (SCLXC.save_logs self).
Proof.
  unfold SCLXC.save_logs, c.file. keeps_tac.
  apply keeps_modify. apply host_writes_dir.
Qed.

Lemma restart_haproxy_keeps nodes `{!HostWrites R} : keeps R (restart_haproxy rt nodes).
Proof. unfold restart_haproxy, SCLXC.is_defined, c.defined. keeps_tac. Qed.

End MethodFrames.

(** ** What the methods of [SCLXC] achieve *)

Lemma string_length_append (a b : string) :
  String.length (a +:+ b) = String.length a + String.length b.
Proof. induction a as [|ch a IH]; simpl; [done|]. by rewrite IH. Qed.

Lemma start_messages_differ {A} (w1 w2 : World) (n : string) :
  (w1, Raise (A:=A) (RuntimeError ("failed to start " +:+ n)))
  ≠ (w2, Raise (RuntimeError ("failed to start network in " +:+ n))).
Proof.
  intros H. apply (f_equal message_length) in H. unfold message_length in H.
  simpl in H. rewrite !string_length_append in H. simpl in H. lia.
Qed.

Lemma is_running_in_set_running w name :
  is_defined_in w name = true →
  is_running_in (set_containers (alter (set_running true) name) w) name = true.
Proof.
  unfold is_defined_in, is_running_in. simpl. intros H.
  apply bool_decide_eq_true in H as [c0 Hc]. by rewrite lookup_alter_eq, Hc.
Qed.

Lemma is_running_in_same_registry w w' name :
  same_registry w w' → is_running_in w' name = is_running_in w name.
Proof. intros H. unfold is_running_in. by rewrite H. Qed.

Lemma is_running_in_defined w name :
  is_running_in w name = true → is_defined_in w name = true.
Proof.
  unfold is_running_in, is_defined_in. intros H. apply bool_decide_eq_true.
  destruct (containers w !! name); [by eexists|done].
Qed.

Section Methods.

Variable rt : Runtime.

(** [get_ips] answers after the state it was called in, with the registry
    unchanged. *)
Lemma c_get_ips_result name seconds w :
  ∃ w1 ips, c.get_ips rt name seconds w = (w1, Ok ips) ∧ same_registry w w1.
Proof.
  pose proof (poll_ips_keeps rt same_registry name seconds
                (emit (EvLxc name (OpGetIps seconds)) w)) as H.
  unfold c.get_ips. destruct (c.poll_ips _ _ _ _) as [w1 ips].
  by exists w1, ips.
Qed.

(** [start] either fails to start a container that was not running, or
    leaves it running, with or without a network. *)
Lemma start_cases self w :
  (∃ w', SCLXC.start rt self w = (w', Raise (RuntimeError ("failed to start " +:+ self)))
         ∧ is_running_in w self = false ∧ same_registry w w')
  ∨ (∃ w' r, SCLXC.start rt self w = (w', r) ∧ is_running_in w' self = true
         ∧ (r = Ok tt ∨ r = Raise (RuntimeError ("failed to start network in " +:+ self)))).
Proof.
  unfold SCLXC.start, c.running, query, bind.
  destruct (is_running_in w self) eqn:Hr.
  - right. simpl. destruct (c_get_ips_result self timeout w) as (w1 & ips & -> & Hw).
    exists w1. destruct ips; eexists; (split; [reflexivity|]);
      rewrite (is_running_in_same_registry _ _ _ Hw); auto.
  - unfold c.start. destruct (is_defined_in w self && lxc_start_ok rt w self) eqn:Hok.
    + right. apply andb_true_iff in Hok as [Hd _].
      match goal with |- context [c.get_ips rt self timeout ?w0] =>
        destruct (c_get_ips_result self timeout w0) as (w1 & ips & -> & Hw) end.
      exists w1. destruct ips; eexists; (split; [reflexivity|]);
        rewrite (is_running_in_same_registry _ _ _ Hw);
        (split; [|auto]);
        apply (is_running_in_set_running (emit (EvLxc self OpStart) w) self Hd).
    + left. eexists. split; [reflexivity|]. done.
Qed.

Lemma start_Ok_running self w w' :
  SCLXC.start rt self w = (w', Ok tt) → is_running_in w' self = true.
Proof.
  intros H. destruct (start_cases self w) as [(w1 & E & _)|(w1 & r & E & Hrun & _)];
    rewrite H in E; [discriminate|]. by inversion E; subst.
Qed.

Lemma start_no_network_running self w w' :
  SCLXC.start rt self w
    = (w', Raise (RuntimeError ("failed to start network in " +:+ self))) →
  is_running_in w' self = true.
Proof.
  intros H. destruct (start_cases self w) as [(w1 & E & _)|(w1 & r & E & Hrun & _)];
    rewrite H in E.
  - symmetry in E. by apply start_messages_differ in E.
  - by inversion E; subst.
Qed.

Lemma is_defined_in_false w name :
  is_defined_in w name = false → containers w !! name = None.
Proof.
  unfold is_defined_in. intros H. apply bool_decide_eq_false in H.
  by apply eq_None_not_Some.
Qed.

Lemma is_defined_in_true w name :
  is_defined_in w name = true ↔ is_Some (containers w !! name).
Proof. unfold is_defined_in. apply bool_decide_eq_true. Qed.

Lemma c_destroy_true name w w' :
  c.destroy rt name w = (w', Ok true) → containers w' !! name = None.
Proof.
  unfold c.destroy. destruct (_ && _); intros [= <-]. simpl. apply lookup_delete_eq.
Qed.

Lemma destroy_Ok_undefined self w w' :
  SCLXC.destroy rt self w = (w', Ok tt) → containers w' !! self = None.
Proof.
  unfold SCLXC.destroy. intros H.
  apply bind_Ok_inv in H as (w1 & d & Hd & H). destruct d.
  - apply bind_Ok_inv in H as (w2 & [] & _ & H).
    apply bind_Ok_inv in H as (w3 & r & _ & H).
    apply bind_Ok_inv in H as (w4 & stopped & _ & H).
    destruct stopped; [|discriminate].
    apply bind_Ok_inv in H as (w5 & ok & Hok & H).
    destruct ok; [|discriminate]. injection H as <-.
    by apply c_destroy_true in Hok.
  - injection Hd as <- Hd. injection H as <-. simpl.
    by apply is_defined_in_false.
Qed.

End Methods.

Lemma destroy_undefined rt self w :
  containers w !! self = None →
  SCLXC.destroy rt self w
  = (emit (EvLog DEBUG ("not destroying " +:+ self +:+ " since it is not defined")) w,
     Ok tt).
Proof.
  intros H. unfold SCLXC.destroy, c.defined, query, bind, is_defined_in.
  rewrite H. rewrite bool_decide_eq_false_2 by (by intros [? ?]). reflexivity.
Qed.

(** C5: [destroy()] on a container that is not defined returns without an
    exception and leaves the host as it was but for one debug record in
    the log; a [destroy()] that returned is followed by a [destroy()]
    that does exactly that. *)
Theorem destroy_idempotent (rt : Runtime) (self : string) (w : World) :
  (containers w !! self = None →
   SCLXC.destroy rt self w
   = (emit (EvLog DEBUG ("not destroying " +:+ self +:+ " since it is not defined")) w,
      Ok tt))
  ∧ (∀ w1, SCLXC.destroy rt self w = (w1, Ok tt) →
     SCLXC.destroy rt self w1
     = (emit (EvLog DEBUG ("not destroying " +:+ self +:+ " since it is not defined")) w1,
        Ok tt)).
Proof.
  split.
  - apply destroy_undefined.
  - intros w1 H. apply destroy_undefined. by apply destroy_Ok_undefined in H.
Qed.

Lemma poll_ips_never rt name seconds w :
  (∀ w0, lxc_ips rt w0 name = []) →
  ∃ w1, c.poll_ips rt name seconds w = (w1, [])
        ∧ clock w1 = clock w + seconds ∧ containers w1 = containers w.
Proof.
  intros Hips. revert w. induction seconds as [|k IH]; intros w; simpl; rewrite Hips.
  - exists w. split_and!; [done|lia|done].
  - destruct (IH (sleep 1 w)) as (w1 & -> & Hclock & Hreg).
    exists w1. split_and!; [done| |done]. rewrite Hclock. simpl. lia.
Qed.

Lemma c_get_ips_never rt name seconds w :
  (∀ w0, lxc_ips rt w0 name = []) →
  ∃ w1, c.get_ips rt name seconds w = (w1, Ok [])
        ∧ clock w1 = clock w + seconds ∧ containers w1 = containers w.
Proof.
  intros Hips. unfold c.get_ips.
  destruct (poll_ips_never rt name seconds (emit (EvLxc name (OpGetIps seconds)) w) Hips)
    as (w1 & -> & Hclock & Hreg).
  by exists w1.
Qed.

Lemma c_start_true rt name w :
  is_defined_in w name = true → lxc_start_ok rt w name = true →
  c.start rt name w
  = (set_containers (alter (set_running true) name) (emit (EvLxc name OpStart) w), Ok true).
Proof. intros Hd Hok. unfold c.start. by rewrite Hd, Hok. Qed.

(** C7: when the container is defined, is running or can be started, and
    never reports an address, [start()] raises its network error after
    waiting for exactly [timeout] seconds and leaves the container
    defined and running. *)
Theorem start_network_timeout (rt : Runtime) (self : string) (w : World) :
  is_defined_in w self = true →
  (is_running_in w self = false → lxc_start_ok rt w self = true) →
  (∀ w0, lxc_ips rt w0 self = []) →
  ∃ w', SCLXC.start rt self w
        = (w', Raise (RuntimeError ("failed to start network in " +:+ self)))
        ∧ is_running_in w' self = true
        ∧ is_defined_in w' self = true
        ∧ clock w' = clock w + timeout.
Proof.
  intros Hdef Hstart Hips.
  assert (∃ w', SCLXC.start rt self w
        = (w', Raise (RuntimeError ("failed to start network in " +:+ self)))
        ∧ clock w' = clock w + timeout) as (w' & E & Hclock).
  { unfold SCLXC.start.
    rewrite (bind_Ok _ _ w w (is_running_in w self)) by reflexivity.
    destruct (is_running_in w self) eqn:Hr.
    - rewrite (bind_Ok _ _ w w true) by reflexivity.
      destruct (c_get_ips_never rt self timeout w Hips) as (w1 & Eips & Hclock & _).
      rewrite (bind_Ok _ _ _ _ _ Eips). by exists w1.
    - rewrite (bind_Ok _ _ _ _ _ (c_start_true rt self w Hdef (Hstart eq_refl))).
      destruct (c_get_ips_never rt self timeout
                  (set_containers (alter (set_running true) self)
                     (emit (EvLxc self OpStart) w)) Hips)
        as (w1 & Eips & Hclock & _).
      rewrite (bind_Ok _ _ _ _ _ Eips). by exists w1. }
  exists w'. split_and!; [done| | |done].
  - by apply start_no_network_running in E.
  - by apply start_no_network_running, is_running_in_defined in E.
Qed.

(** ** Cloning *)

Lemma clone_unfold rt self clone_name autostart update_first :
  SCLXC.clone rt self clone_name autostart update_first =
  (let* d := c.defined self in
   if d then
     when update_first (SCLXC.update rt self) >>
     SCLXC.shutdown rt self >>
     SCLXC.destroy rt clone_name >>
     log_info ("cloning " +:+ self +:+ " to " +:+ clone_name) >>
     let* ok := c.clone rt self clone_name in
     if ok then after_snapshot clone_name autostart
     else raise (RuntimeError ("failed to clone " +:+ self))
   else raise (RuntimeError "cannot clone a non-existing container")).
Proof. reflexivity. Qed.

Lemma remove_log_result name path c0 w :
  containers w !! name = Some c0 →
  ∃ w1, (let* found := c.file name path in
         when (bool_decide (is_Some found)) (c.remove_file name path)) w = (w1, Ok tt)
        ∧ containers w1 = <[name := set_rootfs (delete path) c0]> (containers w).
Proof.
  intros Hc. unfold bind, c.file, query. rewrite Hc. simpl.
  destruct (rootfs c0 !! path) as [content|] eqn:Hp; simpl.
  - eexists. split; [reflexivity|]. simpl.
    apply map_eq. intros n. destruct (decide (name = n)) as [<-|Hn].
    + by rewrite lookup_alter_eq, lookup_insert_eq, Hc.
    + by rewrite lookup_alter_ne, lookup_insert_ne.
  - exists w. split; [reflexivity|]. symmetry. apply insert_id.
    rewrite Hc. f_equal. destruct c0 as [r ci sc fs]. unfold set_rootfs. simpl in *.
    by rewrite delete_id.
Qed.

Lemma after_snapshot_result clone_name autostart src w :
  containers w !! clone_name = Some (snapshot src) →
  ∃ w', after_snapshot clone_name autostart w = (w', Ok clone_name)
        ∧ containers w' = <[clone_name := fresh_clone autostart src]> (containers w).
Proof.
  intros Hc. unfold after_snapshot.
  assert (∃ w1, when autostart
     (c.set_config_item clone_name "lxc.start.auto" "1" >>
      c.set_config_item clone_name "lxc.start.delay" (PyStr.str_nat start_delay) >>
      c.save_config clone_name) w = (w1, Ok tt)
    ∧ containers w1 = <[clone_name :=
         mkContainer false (config_items (fresh_clone autostart src))
           (config_items (fresh_clone autostart src)) (rootfs src)]> (containers w))
    as (w1 & E1 & H1).
  { destruct autostart; simpl.
    - eexists. split; [reflexivity|]. simpl.
      apply map_eq. intros n. destruct (decide (clone_name = n)) as [<-|Hn].
      + by rewrite !lookup_alter_eq, lookup_insert_eq, Hc.
      + by rewrite !lookup_alter_ne, lookup_insert_ne.
    - exists w. split; [reflexivity|]. symmetry. by apply insert_id. }
  rewrite (bind_Ok _ _ _ _ _ E1). cbn [for_each].
  edestruct (remove_log_result clone_name ("/var/log/" +:+ "sagecell.log"))
    as (w2 & E2 & H2).
  { rewrite H1. apply lookup_insert_eq. }
  edestruct (remove_log_result clone_name ("/var/log/" +:+ "sagecell-console.log"))
    as (w3 & E3 & H3).
  { rewrite H2. apply lookup_insert_eq. }
  exists w3. split.
  - rewrite (bind_Ok _ _ w1 w3 tt); [reflexivity|].
    rewrite (bind_Ok _ _ _ _ _ E2). rewrite (bind_Ok _ _ _ _ _ E3). reflexivity.
  - rewrite H3, H2, H1, !insert_insert_eq. reflexivity.
Qed.

Global Instance trace_extends_preorder : PreOrder trace_extends.
Proof.
  split.
  - intros w. by exists [].
  - intros w1 w2 w3 [e1 H1] [e2 H2]. exists (e2 ++ e1). by rewrite H2, H1, app_assoc.
Qed.

Global Instance trace_extends_quiet : Quiet trace_extends.
Proof.
  split; [apply _|..].
  - intros lvl msg w. by exists [EvLog lvl msg].
  - intros command w. by exists [EvExec command].
  - intros d w. by exists [EvSleep d].
Qed.

Global Instance trace_extends_touches name : Touches trace_extends name.
Proof.
  split; [split; [apply _|..]|..]; intros; try by exists [].
  by exists [EvLxc name op].
Qed.

Global Instance trace_extends_host_writes : HostWrites trace_extends.
Proof. split; [apply _|..]; intros; by exists []. Qed.

Lemma after_snapshot_keeps R clone_name autostart `{!Alters R clone_name} :
  keeps R (after_snapshot clone_name autostart).
Proof.
  unfold after_snapshot. keeps_tac.
  apply keeps_for_each; [apply _|]. intros logfile _. unfold c.file. keeps_tac.
Qed.

Section Clone.

Variable rt : Runtime.

Lemma c_clone_true_inv name target w w' :
  c.clone rt name target w = (w', Ok true) →
  ∃ src, containers w !! name = Some src ∧ containers w !! target = None
         ∧ w' = set_containers (insert target (snapshot src))
                  (emit (EvLxc name (OpClone target)) w).
Proof.
  unfold c.clone. destruct (containers w !! name) as [src|]; [|discriminate].
  destruct (is_defined_in w target) eqn:Hd; simpl; [discriminate|].
  destruct (lxc_clone_ok _ _ _ _); [|discriminate].
  intros [= <-]. exists src. split_and!; [done| |done]. by apply is_defined_in_false.
Qed.

Lemma shutdown_running_inv self w w1 :
  is_running_in w self = true →
  SCLXC.shutdown rt self w = (w1, Ok tt) →
  w1 = set_containers (alter (set_running false) self)
         (emit (EvLxc self (OpShutdown timeout)) w).
Proof.
  intros Hr. unfold SCLXC.shutdown.
  rewrite (bind_Ok _ _ w w true) by (unfold c.running, query; by rewrite Hr).
  unfold bind, c.shutdown. rewrite Hr. simpl.
  destruct (lxc_shutdown_ok _ _ _); [|discriminate]. by intros [= <-].
Qed.

Lemma is_running_in_stopped w name :
  is_running_in (set_containers (alter (set_running false) name) w) name = false.
Proof.
  unfold is_running_in. simpl. rewrite lookup_alter_eq.
  by destruct (containers w !! name).
Qed.

Lemma shutdown_Ok_stopped self w w1 :
  SCLXC.shutdown rt self w = (w1, Ok tt) → is_running_in w1 self = false.
Proof.
  intros H. destruct (is_running_in w self) eqn:Hr.
  - rewrite (shutdown_running_inv self w w1 Hr H). apply is_running_in_stopped.
  - unfold SCLXC.shutdown in H.
    rewrite (bind_Ok _ _ w w false) in H by (unfold c.running, query; by rewrite Hr).
    by injection H as <-.
Qed.

(** What a [clone] that returned has done, step by step. *)
Lemma clone_Ok_inv self clone_name autostart update_first w w' r :
  SCLXC.clone rt self clone_name autostart update_first w = (w', Ok r) →
  r = clone_name ∧
  ∃ w0 w1 w2 src,
    when update_first (SCLXC.update rt self) w = (w0, Ok tt)
    ∧ SCLXC.shutdown rt self w0 = (w1, Ok tt)
    ∧ SCLXC.destroy rt clone_name w1 = (w2, Ok tt)
    ∧ containers w2 !! clone_name = None
    ∧ containers w2 !! self = Some src
    ∧ containers w' = <[clone_name := fresh_clone autostart src]> (containers w2)
    ∧ ∃ later, trace w' = later ++ EvLxc self (OpClone clone_name)
                 :: EvLog INFO ("cloning " +:+ self +:+ " to " +:+ clone_name)
                 :: trace w2.
Proof.
  rewrite clone_unfold. intros H.
  apply bind_Ok_inv in H as (? & d & Hd & H). injection Hd as <- _.
  destruct d; [|discriminate].
  apply bind_Ok_inv in H as (w0 & [] & H0 & H).
  apply bind_Ok_inv in H as (w1 & [] & H1 & H).
  apply bind_Ok_inv in H as (w2 & [] & H2 & H).
  apply bind_Ok_inv in H as (? & [] & Hlog & H). injection Hlog as <-.
  apply bind_Ok_inv in H as (w3 & ok & Hok & H).
  destruct ok; [|discriminate].
  apply c_clone_true_inv in Hok as (src & Hsrc & Htgt & ->). simpl in Hsrc, Htgt.
  edestruct (after_snapshot_result clone_name autostart src) as (w4 & E4 & H4);
    [|rewrite E4 in H; injection H as <- <-].
  { simpl. apply lookup_insert_eq. }
  split; [done|]. exists w0, w1, w2, src. split_and!; try done.
  - rewrite H4. simpl. by rewrite insert_insert_eq.
  - eapply (keeps_result trace_extends) in E4 as [later E4];
      [|apply after_snapshot_keeps, _].
    exists later. by rewrite E4.
Qed.

End Clone.

Section CloneClaims.

Variable rt : Runtime.

Lemma shutdown_cooperates self w :
  (∀ w0, lxc_shutdown_ok rt w0 self = true) →
  ∃ w1, SCLXC.shutdown rt self w = (w1, Ok tt).
Proof.
  intros Hok. unfold SCLXC.shutdown.
  rewrite (bind_Ok _ _ w w (is_running_in w self)) by reflexivity.
  destruct (is_running_in w self) eqn:Hr; [|by eexists].
  unfold bind, c.shutdown. rewrite Hr, Hok. simpl. by eexists.
Qed.

Lemma destroy_cooperates self w :
  (∀ w0, lxc_stop_ok rt w0 self = true) →
  (∀ w0, lxc_destroy_ok rt w0 self = true) →
  ∃ w1, SCLXC.destroy rt self w = (w1, Ok tt).
Proof.
  intros Hstop Hdestroy. unfold SCLXC.destroy.
  rewrite (bind_Ok _ _ w w (is_defined_in w self)) by reflexivity.
  destruct (is_defined_in w self) eqn:Hd; [|by eexists].
  rewrite (bind_Ok _ _ w _ tt) by reflexivity.
  set (w1 := emit _ w).
  rewrite (bind_Ok _ _ w1 w1 (is_running_in w1 self)) by reflexivity.
  assert (∃ w2, (if is_running_in w1 self then c.stop rt self else ret true) w1
                = (w2, Ok true) ∧ is_defined_in w2 self = true) as (w2 & E2 & Hd2).
  { destruct (is_running_in w1 self) eqn:Hr.
    - unfold c.stop. rewrite Hr, Hstop. simpl. eexists. split; [reflexivity|].
      by rewrite is_defined_in_alter.
    - by exists w1. }
  rewrite (bind_Ok _ _ _ _ _ E2).
  unfold bind, c.destroy. rewrite Hd2, Hdestroy. simpl. by eexists.
Qed.

(** C6: [clone] raises its error and changes nothing when the source is
    not defined. A [clone] that returns has returned the new name after
    destroying the container of that name, so that it was undefined when
    the snapshot was taken, and has left under that name the snapshot of
    the source with the autostart flag and delay saved when asked for and
    without the two log files. And [clone] does return when the source is
    defined, differs from the new name, and LXC carries out the shutdown,
    the stop, the destruction and the snapshot. *)
Theorem clone_clean_slate_snapshot (self clone_name : string)
    (autostart update_first : bool) (w : World) :
  (containers w !! self = None →
   SCLXC.clone rt self clone_name autostart update_first w
   = (w, Raise (RuntimeError "cannot clone a non-existing container")))
  ∧ (∀ w' r,
     SCLXC.clone rt self clone_name autostart update_first w = (w', Ok r) →
     r = clone_name ∧
     ∃ w0 w1 w2 src,
       when update_first (SCLXC.update rt self) w = (w0, Ok tt)
       ∧ SCLXC.shutdown rt self w0 = (w1, Ok tt)
       ∧ SCLXC.destroy rt clone_name w1 = (w2, Ok tt)
       ∧ containers w2 !! clone_name = None
       ∧ containers w2 !! self = Some src
       ∧ containers w' !! clone_name = Some (fresh_clone autostart src))
  ∧ (update_first = false →
     is_defined_in w self = true →
     self ≠ clone_name →
     (∀ w0, lxc_shutdown_ok rt w0 self = true) →
     (∀ w0, lxc_stop_ok rt w0 clone_name = true) →
     (∀ w0, lxc_destroy_ok rt w0 clone_name = true) →
     (∀ w0, lxc_clone_ok rt w0 self clone_name = true) →
     ∃ w', SCLXC.clone rt self clone_name autostart update_first w
           = (w', Ok clone_name)).
Proof.
  split_and!.
  - intros Hnone. rewrite clone_unfold. unfold bind, c.defined, query, is_defined_in.
    rewrite Hnone. by rewrite bool_decide_eq_false_2 by (by intros [? ?]).
  - intros w' r H. apply clone_Ok_inv in H
      as (-> & w0 & w1 & w2 & src & H0 & H1 & H2 & Hnone & Hsrc & Hw' & _).
    split; [done|]. exists w0, w1, w2, src. split_and!; try done.
    rewrite Hw'. apply lookup_insert_eq.
  - intros -> Hdef Hne Hshutdown Hstop Hdestroy Hclone.
    rewrite clone_unfold.
    rewrite (bind_Ok _ _ w w true) by (unfold c.defined, query; by rewrite Hdef).
    rewrite (bind_Ok _ _ w w tt) by reflexivity.
    destruct (shutdown_cooperates self w Hshutdown) as (w1 & E1).
    rewrite (bind_Ok _ _ _ _ _ E1).
    destruct (destroy_cooperates clone_name w1 Hstop Hdestroy) as (w2 & E2).
    rewrite (bind_Ok _ _ _ _ _ E2).
    rewrite (bind_Ok _ _ w2 _ tt) by reflexivity.
    assert (is_defined_in w2 self = true) as Hdef2.
    { pose proof (keeps_result same_defined _ _ _ _ (shutdown_keeps rt _ self) E1 self) as Hd1.
      pose proof (same_outside_touches [clone_name] clone_name ltac:(left)) as HT.
      pose proof (keeps_result _ _ _ _ _ (destroy_keeps rt _ clone_name) E2 self) as Hd2.
      unfold is_defined_in in *. rewrite Hd2 by (by intros ->%list_elem_of_singleton).
      by rewrite Hd1. }
    apply is_defined_in_true in Hdef2 as [src Hsrc].
    apply destroy_Ok_undefined in E2 as Hnone.
    set (w3 := emit _ w2).
    assert (c.clone rt self clone_name w3
            = (set_containers (insert clone_name (snapshot src))
                 (emit (EvLxc self (OpClone clone_name)) w3), Ok true)) as E3.
    { unfold c.clone, is_defined_in. simpl. rewrite Hsrc, Hnone, Hclone.
      by rewrite bool_decide_eq_false_2 by (by intros [? ?]). }
    rewrite (bind_Ok _ _ _ _ _ E3).
    edestruct (after_snapshot_result clone_name autostart src) as (w4 & E4 & _);
      [|rewrite E4; by exists w4].
    simpl. apply lookup_insert_eq.
Qed.

(** C10: when the source is running, a [clone] that returns has shut the
    source down before anything else, has taken the snapshot from the
    stopped source ([running src = false], the shutdown in the trace
    before the snapshot) and returns with the source still stopped; and
    when LXC fails to shut the source down, [clone] raises and the
    registry is as it was: no snapshot is taken of a running source. *)
Theorem clone_shuts_down_running_source (self clone_name : string)
    (autostart : bool) (w : World) :
  is_running_in w self = true →
  (∀ w' r,
     SCLXC.clone rt self clone_name autostart false w = (w', Ok r) →
     ∃ w1 w2 src between later,
       SCLXC.shutdown rt self w = (w1, Ok tt)
       ∧ trace w1 = EvLxc self (OpShutdown timeout) :: trace w
       ∧ SCLXC.destroy rt clone_name w1 = (w2, Ok tt)
       ∧ containers w2 !! self = Some src
       ∧ running src = false
       ∧ containers w' !! clone_name = Some (fresh_clone autostart src)
       ∧ trace w' = later ++ EvLxc self (OpClone clone_name)
                      :: between ++ EvLxc self (OpShutdown timeout) :: trace w
       ∧ is_running_in w' self = false)
  ∧ (lxc_shutdown_ok rt w self = false →
     ∃ w1, SCLXC.clone rt self clone_name autostart false w
           = (w1, Raise (RuntimeError ("failed to shutdown " +:+ self)))
           ∧ containers w1 = containers w).
Proof.
  intros Hrun. split.
  - intros w' r H. apply clone_Ok_inv in H
      as (-> & w0 & w1 & w2 & src & H0 & H1 & H2 & Hnone & Hsrc & Hw' & later & Htr).
    injection H0 as <-.
    pose proof (shutdown_running_inv rt self w w1 Hrun H1) as Hw1.
    pose proof (keeps_result trace_extends _ _ _ _ (destroy_keeps rt _ clone_name) H2)
      as [between Hbetween].
    assert (self ≠ clone_name) as Hne by congruence.
    pose proof (same_outside_touches [clone_name] clone_name ltac:(left)) as HT.
    pose proof (keeps_result _ _ _ _ _ (destroy_keeps rt _ clone_name) H2 self) as Hself.
    rewrite Hsrc in Hself. specialize (Hself ltac:(by intros ->%list_elem_of_singleton)).
    assert (running src = false) as Hstopped.
    { pose proof (shutdown_Ok_stopped rt self w w1 H1) as Hs.
      unfold is_running_in in Hs. by rewrite <- Hself in Hs. }
    exists w1, w2, src, (EvLog INFO ("cloning " +:+ self +:+ " to " +:+ clone_name) :: between), later.
    split_and!; try done.
    + by rewrite Hw1.
    + rewrite Hw'. apply lookup_insert_eq.
    + rewrite Htr, Hbetween. f_equal. f_equal. simpl. f_equal. f_equal. by rewrite Hw1.
    + unfold is_running_in. by rewrite Hw', lookup_insert_ne, Hsrc.
  - intros Hfail. rewrite clone_unfold.
    rewrite (bind_Ok _ _ w w true)
      by (unfold c.defined, query; by rewrite (is_running_in_defined _ _ Hrun)).
    rewrite (bind_Ok _ _ w w tt) by reflexivity.
    eexists. split.
    + apply bind_Raise. unfold SCLXC.shutdown.
      rewrite (bind_Ok _ _ w w true) by (unfold c.running, query; by rewrite Hrun).
      unfold bind, c.shutdown. rewrite Hrun, Hfail. reflexivity.
    + reflexivity.
Qed.

End CloneClaims.

(** ** The rotation *)

Global Instance lxc_calls_within_preorder S : PreOrder (lxc_calls_within S).
Proof.
  split.
  - intros w. exists []. split; [done|]. by intros n op ?%elem_of_nil.
  - intros w1 w2 w3 (e1 & H1 & S1) (e2 & H2 & S2). exists (e2 ++ e1). split.
    + by rewrite H2, H1, app_assoc.
    + intros n op [?|?]%elem_of_app; eauto.
Qed.

Lemma lxc_calls_within_one S e w :
  (∀ n op, e = EvLxc n op → n ∈ S) → lxc_calls_within S w (emit e w).
Proof.
  intros H. exists [e]. split; [done|].
  intros n op He%list_elem_of_singleton. by eapply H.
Qed.

Lemma lxc_calls_within_same_trace S w w' :
  trace w' = trace w → lxc_calls_within S w w'.
Proof. intros H. exists []. split; [done|]. by intros n op ?%elem_of_nil. Qed.

Global Instance lxc_calls_within_quiet S : Quiet (lxc_calls_within S).
Proof.
  split; [apply _|..].
  - intros lvl msg w. by apply lxc_calls_within_one.
  - intros command w. by apply lxc_calls_within_one.
  - intros d w. exists [EvSleep d]. split; [done|].
    by intros n op ?%list_elem_of_singleton.
Qed.

Global Instance lxc_calls_within_host_writes S : HostWrites (lxc_calls_within S).
Proof. split; [apply _|..]; intros; by apply lxc_calls_within_same_trace. Qed.

Lemma lxc_calls_within_touches S name :
  name ∈ S → Touches (lxc_calls_within S) name.
Proof.
  intros HS. split; [split; [apply _|..]|..];
    try (intros; by apply lxc_calls_within_same_trace).
  intros op w. apply lxc_calls_within_one. by intros n op' [= <- _].
Qed.

Lemma keeps_bind_value R `{!PreOrder R} {A B} (m : M A) (k : A → M B) (P : A → Prop) :
  keeps R m →
  (∀ w w' a, m w = (w', Ok a) → P a) →
  (∀ a, P a → keeps R (k a)) →
  keeps R (bind m k).
Proof.
  intros Hm HP Hk w. unfold bind. pose proof (Hm w) as Hw. pose proof (HP w) as HPw.
  destruct (m w) as [w1 [a|e]]; simpl in *; [|done].
  etrans; [exact Hw|]. by apply Hk, (HPw w1).
Qed.

Lemma nodes_A_eq : nodes_A = ["sc-0A"; "sc-1A"; "sc-2A"].
Proof. reflexivity. Qed.

Lemma nodes_B_eq : nodes_B = ["sc-0B"; "sc-1B"; "sc-2B"].
Proof. reflexivity. Qed.

Lemma pools_ok_A_B : pools_ok nodes_A nodes_B.
Proof.
  split; unfold all_nodes; rewrite ?nodes_A_eq, ?nodes_B_eq.
  - by apply (bool_decide_unpack _).
  - by apply (bool_decide_unpack _).
  - by apply (bool_decide_unpack _).
  - by apply (bool_decide_unpack _).
  - apply Forall_forall. by apply (bool_decide_unpack _).
  - intros n. by rewrite elem_of_app.
Qed.

Lemma pools_ok_B_A : pools_ok nodes_B nodes_A.
Proof.
  split; unfold all_nodes; rewrite ?nodes_A_eq, ?nodes_B_eq.
  - by apply (bool_decide_unpack _).
  - by apply (bool_decide_unpack _).
  - by apply (bool_decide_unpack _).
  - by apply (bool_decide_unpack _).
  - apply Forall_forall. by apply (bool_decide_unpack _).
  - intros n. rewrite elem_of_app. tauto.
Qed.

Lemma choose_pools_inv w w0 new_nodes old_nodes :
  choose_pools w = (w0, Ok (new_nodes, old_nodes)) →
  w0 = w ∧ pools_ok new_nodes old_nodes
  ∧ (forallb (is_defined_in w) nodes_A = true
       ∧ new_nodes = nodes_B ∧ old_nodes = nodes_A
     ∨ forallb (is_defined_in w) nodes_A = false
       ∧ new_nodes = nodes_A ∧ old_nodes = nodes_B).
Proof.
  unfold choose_pools, bind, query.
  destruct (forallb (is_defined_in w) nodes_A) eqn:Hall; intros [= <- <- <-].
  - split_and!; [done|apply pools_ok_B_A|by left].
  - split_and!; [done|apply pools_ok_A_B|by right].
Qed.

Section RotationFrames.

Variable rt : Runtime.
Variable R : relation World.

Lemma clone_value self clone_name autostart update_first w w' r :
  SCLXC.clone rt self clone_name autostart update_first w = (w', Ok r) →
  r = clone_name.
Proof. intros H. by apply clone_Ok_inv in H as [-> _]. Qed.

Lemma provision_keeps new_nodes `{HA : !Alters R lxcn_sagecell} :
  (∀ n, n ∈ new_nodes → Touches R n) → keeps R (provision rt new_nodes).
Proof.
  intros H. unfold provision. apply keeps_for_each; [apply _|].
  intros n Hn. pose proof (H n Hn).
  apply (keeps_bind_value R _ _ (λ r, r = n)).
  - by apply clone_keeps.
  - intros w w' r. apply clone_value.
  - intros r ->. apply start_keeps, _.
Qed.

Lemma drain_keeps old_nodes need_to_wait `{!Quiet R} :
  (∀ n, n ∈ old_nodes → Alters R n) → keeps R (drain rt old_nodes need_to_wait).
Proof.
  revert need_to_wait. induction old_nodes as [|n rest IH]; intros b H; simpl.
  - apply keeps_ret, _.
  - pose proof (H n ltac:(left)).
    assert (∀ b, keeps R (drain rt rest b)) as Hrest.
    { intros b'. apply IH. intros m Hm. apply H. by right. }
    unfold SCLXC.is_defined, c.defined. keeps_tac. apply inside_keeps, _.
Qed.

Lemma finalize_keeps old_nodes `{!HostWrites R} :
  (∀ n, n ∈ old_nodes → Touches R n) → keeps R (finalize rt old_nodes).
Proof.
  intros H. unfold finalize. apply keeps_for_each; [apply _|].
  intros n Hn. pose proof (H n Hn). keeps_tac.
  - apply save_logs_keeps, _.
  - apply destroy_keeps, _.
Qed.

Lemma warm_up_keeps `{!Quiet R} : keeps R warm_up.
Proof. unfold warm_up. keeps_tac. Qed.

Lemma wait_for_users_keeps args need_to_wait `{!Alters R lxcn_sagecell} :
  keeps R (wait_for_users rt args need_to_wait).
Proof.
  unfold wait_for_users. keeps_tac.
  - apply start_keeps, _.
  - apply shutdown_keeps, _.
Qed.

Lemma draining_keeps args old_nodes `{HA : !Alters R lxcn_sagecell} :
  (∀ n, n ∈ old_nodes → Alters R n) → keeps R (draining rt args old_nodes).
Proof.
  intros H. pose proof (alters_quiet (name:=lxcn_sagecell)) as HQ.
  unfold draining. keeps_tac.
  - exact (warm_up_keeps (Quiet0:=HQ)).
  - exact (drain_keeps _ _ (Quiet0:=HQ) H).
  - exact (wait_for_users_keeps _ _).
Qed.

End RotationFrames.

Section Rotation.

Variable rt : Runtime.

Lemma provision_cons n rest :
  provision rt (n :: rest) =
  ((let* clone := SCLXC.clone rt lxcn_sagecell n true false in SCLXC.start rt clone)
   >> provision rt rest).
Proof. reflexivity. Qed.

Lemma same_outside_running S w w' n :
  same_outside S w w' → n ∉ S → is_running_in w' n = is_running_in w n.
Proof. intros H Hn. unfold is_running_in. by rewrite H. Qed.

(** A provisioning loop that returns leaves every node of its list
    running. *)
Lemma provision_Ok_running l w w1 :
  NoDup l → lxcn_sagecell ∉ l →
  provision rt l w = (w1, Ok tt) →
  ∀ m, m ∈ l → is_running_in w1 m = true.
Proof.
  revert w. induction l as [|n l IH]; intros w Hnd Hm H m Hin.
  { by apply elem_of_nil in Hin. }
  apply NoDup_cons in Hnd as [Hn Hnd]. apply not_elem_of_cons in Hm as [Hmn Hm].
  rewrite provision_cons in H.
  apply bind_Ok_inv in H as (wa & [] & Hbody & H).
  apply elem_of_cons in Hin as [->|Hin]; [|by eapply IH].
  apply bind_Ok_inv in Hbody as (wb & r & Hclone & Hstart).
  apply clone_value in Hclone as ->.
  apply start_Ok_running in Hstart.
  rewrite <- Hstart. apply (same_outside_running (lxcn_sagecell :: l)).
  - apply (keeps_result _ _ _ _ _ (provision_keeps rt _ l
      (HA:=touches_alters (Touches:=same_outside_touches _ _ ltac:(left)))
      (λ n Hn, same_outside_touches _ _ ltac:(by right)))) in H. exact H.
  - apply not_elem_of_cons. split; [done|exact Hn].
Qed.




End Rotation.

Section RotationClaims.

Variable rt : Runtime.

Lemma provision_frame new_nodes w w' r :
  provision rt new_nodes w = (w', r) →
  same_outside (lxcn_sagecell :: new_nodes) w w'
  ∧ same_host_files w w'
  ∧ lxc_calls_within (lxcn_sagecell :: new_nodes) w w'.
Proof.
  intros H. split_and!.
  - eapply keeps_result; [|exact H].
    apply (provision_keeps rt _ new_nodes
             (HA:=touches_alters (Touches:=same_outside_touches _ _ ltac:(left)))).
    intros n Hn. apply same_outside_touches. by right.
  - eapply keeps_result; [|exact H]. apply provision_keeps; apply _.
  - eapply keeps_result; [|exact H].
    apply (provision_keeps rt _ new_nodes
             (HA:=touches_alters (Touches:=lxc_calls_within_touches _ _ ltac:(left)))).
    intros n Hn. apply lxc_calls_within_touches. by right.
Qed.


(** A regeneration that returns has written the document of the nodes
    that are defined. *)
Lemma restart_haproxy_Ok nodes w w' :
  restart_haproxy rt nodes w = (w', Ok tt) →
  containers w' = containers w
  ∧ host_files w' !! haproxy_cfg
    = Some (haproxy_config (List.filter (is_defined_in w) nodes)
              (is_defined_in w lxcn_tester)).
Proof.
  intros H.
  pose proof (keeps_result same_registry _ _ _ _ (restart_haproxy_keeps rt _ nodes) H) as Hreg.
  split; [exact Hreg|].
  unfold restart_haproxy in H.
  apply bind_Ok_inv in H as (wa & version & Ha & H).
  apply bind_Ok_inv in H as (wb & [] & Hb & H).
  apply bind_Ok_inv in H as (wc & [] & Hc & H).
  apply bind_Ok_inv in H as (wd & [] & Hd & H).
  apply bind_Ok_inv in H as (? & found & Hq & H). injection Hq as <- <-.
  apply bind_Ok_inv in H as (? & tester & Ht & H). injection Ht as <- <-.
  apply bind_Ok_inv in H as (? & [] & Hwrite & H). injection Hwrite as <-.
  apply bind_Ok_inv in H as (wh & [] & Hcall & H). injection H as <-.
  assert (same_registry w wd) as Hwd.
  { etrans; [eapply keeps_result; [|exact Ha]; apply check_output_keeps, _|].
    etrans; [eapply keeps_result; [|exact Hb]|].
    { apply keeps_when; [apply _|]. keeps_tac. }
    etrans; [eapply keeps_result; [|exact Hc]|].
    { keeps_tac. }
    eapply keeps_result; [|exact Hd]. apply log_debug_keeps, _. }
  apply (keeps_result same_host_files _ _ _ _ (check_call_keeps rt _ _)) in Hcall.
  simpl. rewrite lookup_insert_ne by done. rewrite Hcall. simpl.
  rewrite lookup_insert_eq. unfold is_defined_in. by rewrite Hwd.
Qed.

End RotationClaims.

Section RotationSuccess.

Variable rt : Runtime.

Lemma finalize_cons n rest :
  finalize rt (n :: rest) =
  ((SCLXC.save_logs n >> SCLXC.destroy rt n) >> finalize rt rest).
Proof. reflexivity. Qed.

(** A finalizing loop that returns leaves every node of its list
    undefined. *)
Lemma finalize_Ok_undefined l w w' :
  finalize rt l w = (w', Ok tt) → ∀ o, o ∈ l → containers w' !! o = None.
Proof.
  revert w. induction l as [|n l IH]; intros w H o Hin.
  { by apply elem_of_nil in Hin. }
  rewrite finalize_cons in H.
  apply bind_Ok_inv in H as (wa & [] & Hbody & H).
  destruct (decide (o ∈ l)) as [Hl|Hl]; [by eapply IH|].
  apply elem_of_cons in Hin as [->|Hin]; [|done].
  apply bind_Ok_inv in Hbody as (wb & [] & _ & Hdestroy).
  apply destroy_Ok_undefined in Hdestroy. rewrite <- Hdestroy.
  eapply (keeps_result (same_outside l)); [|exact H|exact Hl].
  apply finalize_keeps; [apply _|]. intros m Hm. by apply same_outside_touches.
Qed.

Lemma retire_frame args old_nodes w w' r :
  retire rt args old_nodes w = (w', r) →
  same_outside (lxcn_sagecell :: old_nodes) w w'.
Proof.
  intros H. eapply keeps_result; [|exact H].
  pose proof (same_outside_touches (lxcn_sagecell :: old_nodes) lxcn_sagecell
                ltac:(left)) as HS.
  assert (∀ n, n ∈ old_nodes → Touches (same_outside (lxcn_sagecell :: old_nodes)) n) as HT.
  { intros n Hn. apply same_outside_touches. by right. }
  unfold retire. keeps_tac.
  - apply draining_keeps; [apply _|]. intros n Hn. apply HT, Hn.
  - by apply finalize_keeps; [apply _|].
Qed.

Lemma cutover_Ok new_nodes old_nodes w w2 :
  pools_ok new_nodes old_nodes →
  cutover rt new_nodes w = (w2, Ok tt) →
  (∀ n, n ∈ new_nodes → is_defined_in w2 n = true)
  ∧ (∀ o, o ∈ old_nodes → containers w2 !! o = containers w !! o)
  ∧ host_files w2 !! haproxy_cfg
    = Some (haproxy_config (List.filter (is_defined_in w2) all_nodes)
              (is_defined_in w2 lxcn_tester)).
Proof.
  intros [Hnd _ Hmaster Hmaster' Hdisj _] H. unfold cutover in H.
  apply bind_Ok_inv in H as (wa & [] & Hprov & Hrestart).
  apply restart_haproxy_Ok in Hrestart as [Hreg Hcfg].
  split_and!.
  - intros n Hn. unfold is_defined_in. rewrite Hreg.
    by eapply is_running_in_defined, provision_Ok_running.
  - intros o Ho. rewrite Hreg.
    destruct (provision_frame rt _ _ _ _ Hprov) as (Hout & _).
    apply Hout. apply not_elem_of_cons. split; [by intros ->|].
    intros Hn. by apply (Hdisj o).
  - rewrite Hcfg. unfold is_defined_in. by rewrite Hreg.
Qed.

Lemma main_Ok_inv args w new_nodes old_nodes w' :
  args_deploy args = true →
  choose_pools w = (w, Ok (new_nodes, old_nodes)) →
  main rt args w = (w', Ok tt) →
  ∃ w2 w3 w4,
    cutover rt new_nodes w = (w2, Ok tt)
    ∧ draining rt args old_nodes w2 = (w3, Ok tt)
    ∧ finalize rt old_nodes w3 = (w4, Ok tt)
    ∧ restart_haproxy rt all_nodes w4 = (w', Ok tt).
Proof.
  intros Hdeploy Hpools H. unfold main in H. rewrite Hdeploy in H.
  apply bind_Ok_inv in H as (w4 & [] & H & Hrestart).
  simpl in H. unfold deploy in H. rewrite (bind_Ok _ _ _ _ _ Hpools) in H.
  apply bind_Ok_inv in H as (w2 & [] & Hcut & H).
  apply bind_Ok_inv in H as (w3 & [] & Hdrain & H).
  by exists w2, w3, w4.
Qed.

Lemma filter_all {A} (p : A → bool) (l : list A) :
  (∀ x, x ∈ l → p x = true) → List.filter p l = l.
Proof.
  induction l as [|x l IH]; intros H; simpl; [done|].
  rewrite (H x) by left. f_equal. apply IH. intros y Hy. apply H. by right.
Qed.

Lemma filter_none {A} (p : A → bool) (l : list A) :
  (∀ x, x ∈ l → p x = false) → List.filter p l = [].
Proof.
  induction l as [|x l IH]; intros H; simpl; [done|].
  rewrite (H x) by left. apply IH. intros y Hy. apply H. by right.
Qed.

(** A run with [--deploy] that returns leaves the new pool defined and
    the old pool undefined, and its last regeneration has written the
    document of the new pool. *)
Lemma main_Ok_pools args w new_nodes old_nodes w' :
  args_deploy args = true →
  choose_pools w = (w, Ok (new_nodes, old_nodes)) →
  main rt args w = (w', Ok tt) →
  (∀ n, n ∈ new_nodes → is_defined_in w' n = true)
  ∧ (∀ o, o ∈ old_nodes → is_defined_in w' o = false)
  ∧ host_files w' !! haproxy_cfg
    = Some (haproxy_config new_nodes (is_defined_in w' lxcn_tester)).
Proof.
  intros Hdeploy Hpools H.
  destruct (main_Ok_inv _ _ _ _ _ Hdeploy Hpools H)
    as (w2 & w3 & w4 & Hcut & Hdrain & Hfin & Hrestart).
  destruct (choose_pools_inv _ _ _ _ Hpools) as (_ & Hok & Hcases).
  destruct (cutover_Ok _ _ _ _ Hok Hcut) as (Hnew & _ & _).
  apply restart_haproxy_Ok in Hrestart as [Hreg Hcfg].
  assert (∀ n, n ∈ new_nodes → is_defined_in w' n = true) as Hnew'.
  { intros n Hn. rewrite <- (Hnew n Hn). unfold is_defined_in. rewrite Hreg.
    assert (retire rt args old_nodes w2 = (w4, Ok tt)) as Hret.
    { unfold retire. by rewrite (bind_Ok _ _ _ _ _ Hdrain). }
    apply retire_frame in Hret. rewrite Hret; [done|].
    destruct Hok as [_ _ Hmaster _ Hdisj _].
    apply not_elem_of_cons. split; [by intros ->|]. by apply Hdisj. }
  assert (∀ o, o ∈ old_nodes → is_defined_in w' o = false) as Hold'.
  { intros o Ho. unfold is_defined_in. rewrite Hreg.
    rewrite (finalize_Ok_undefined _ _ _ Hfin o Ho).
    apply bool_decide_eq_false_2. by intros [? ?]. }
  split_and!; [done..|].
  rewrite Hcfg. do 2 f_equal.
  - assert (∀ n, is_defined_in w4 n = is_defined_in w' n) as Hsame.
    { intros n. unfold is_defined_in. by rewrite Hreg. }
    unfold all_nodes. rewrite List.filter_app.
    destruct Hcases as [(_ & -> & ->)|(_ & -> & ->)].
    + rewrite (filter_none _ nodes_A), (filter_all _ nodes_B); [done|..];
        intros n Hn; rewrite Hsame; auto.
    + rewrite (filter_all _ nodes_A), (filter_none _ nodes_B);
        [by rewrite app_nil_r|..]; intros n Hn; rewrite Hsame; auto.
  - unfold is_defined_in. by rewrite Hreg.
Qed.

End RotationSuccess.

Section RotationErrors.

Variable rt : Runtime.








End RotationErrors.

Section RotationPools.

Variable rt : Runtime.

Lemma elem_of_filter_defined w (l : list string) n :
  n ∈ List.filter (is_defined_in w) l ↔ n ∈ l ∧ is_defined_in w n = true.
Proof. rewrite !list_elem_of_In. apply List.filter_In. Qed.

(** C1, as the script has it: the configuration written by the first
    regeneration of a rotation is the document of the nodes of both pools
    that are defined at that time (and of the tester when defined). Every
    node of the new pool is among them, and so is every node of the old
    pool that was defined before the run. The old pool is out of the
    configuration only at the end of a run that returns, whose last
    regeneration writes the document of the new pool alone. *)
Theorem cutover_references_defined_nodes (args : Args) (w : World)
    (new_nodes old_nodes : list string) (w2 : World) :
  choose_pools w = (w, Ok (new_nodes, old_nodes)) →
  cutover rt new_nodes w = (w2, Ok tt) →
  host_files w2 !! haproxy_cfg
    = Some (haproxy_config (List.filter (is_defined_in w2) all_nodes)
              (is_defined_in w2 lxcn_tester))
  ∧ (∀ n, n ∈ new_nodes → n ∈ List.filter (is_defined_in w2) all_nodes)
  ∧ (∀ o, o ∈ old_nodes →
       (o ∈ List.filter (is_defined_in w2) all_nodes ↔ is_defined_in w o = true))
  ∧ (∀ w', args_deploy args = true →
       main rt args w = (w', Ok tt) →
       host_files w' !! haproxy_cfg
       = Some (haproxy_config new_nodes (is_defined_in w' lxcn_tester))).
Proof.
  intros Hpools Hcut.
  destruct (choose_pools_inv _ _ _ _ Hpools) as (_ & Hok & _).
  destruct (cutover_Ok rt _ _ _ _ Hok Hcut) as (Hnew & Hold & Hcfg).
  split_and!.
  - exact Hcfg.
  - intros n Hn. apply elem_of_filter_defined. split; [|by apply Hnew].
    apply (pools_all _ _ Hok). by left.
  - intros o Ho. rewrite elem_of_filter_defined. unfold is_defined_in.
    rewrite (Hold o Ho). split; [by intros [_ ?]|]. intros H. split; [|done].
    apply (pools_all _ _ Hok). by right.
  - intros w' Hdeploy Hmain. by apply (main_Ok_pools rt args w new_nodes old_nodes).
Qed.

(** C9: when a run with [--deploy] has returned and the next run finds the
    compute nodes defined as that run left them, the next run takes as its
    new pool the old pool of the first and as its old pool the new pool of
    the first; the new pools of the two runs share no name. *)
Theorem consecutive_rollouts_alternate (args : Args) (w w1 w2 : World)
    (new1 old1 new2 old2 : list string) :
  args_deploy args = true →
  choose_pools w = (w, Ok (new1, old1)) →
  main rt args w = (w1, Ok tt) →
  (∀ n, n ∈ all_nodes → is_defined_in w2 n = is_defined_in w1 n) →
  choose_pools w2 = (w2, Ok (new2, old2)) →
  new2 = old1 ∧ old2 = new1 ∧ ∀ n, n ∈ new1 → n ∉ new2.
Proof.
  intros Hdeploy Hpools Hmain Hsame Hpools2.
  destruct (main_Ok_pools rt _ _ _ _ _ Hdeploy Hpools Hmain) as (Hnew & Hold & _).
  destruct (choose_pools_inv _ _ _ _ Hpools) as (_ & Hok & Hcases).
  destruct (choose_pools_inv _ _ _ _ Hpools2) as (_ & _ & Hcases2).
  assert (new2 = old1 ∧ old2 = new1) as [-> ->].
  { destruct Hcases as [(_ & -> & ->)|(_ & -> & ->)];
      destruct Hcases2 as [(Hall & -> & ->)|(Hall & -> & ->)]; try done.
    - apply forallb_forall with (x := "sc-0A") in Hall; [|by left].
      rewrite Hsame, Hold in Hall; [done|by left|].
      apply elem_of_app. left. by left.
    - assert (forallb (is_defined_in w2) nodes_A = true) as Hall'; [|congruence].
      apply forallb_forall. intros n Hn%list_elem_of_In.
      rewrite Hsame; [by apply Hnew|]. apply elem_of_app. by left. }
  split_and!; [done..|]. apply (pools_disjoint _ _ Hok).
Qed.

End RotationPools.

(** ** The claims on concrete hosts *)

Lemma destroy_idempotent_witness :
  SCLXC.destroy rt_ok "sc-0B" (SCLXC.destroy rt_ok "sc-0B" host_with_B_live).1
  = (emit (EvLog DEBUG "not destroying sc-0B since it is not defined")
       (SCLXC.destroy rt_ok "sc-0B" host_with_B_live).1, Ok tt).
Proof.
  apply (proj2 (destroy_idempotent rt_ok "sc-0B" host_with_B_live)).
  vm_compute. reflexivity.
Defined.

Lemma start_network_timeout_witness :
  ∃ w', SCLXC.start (rt_no_network "sagecell") "sagecell" host_with_B_live
        = (w', Raise (RuntimeError "failed to start network in sagecell"))
        ∧ is_running_in w' "sagecell" = true
        ∧ is_defined_in w' "sagecell" = true
        ∧ clock w' = 0 + timeout.
Proof.
  apply (start_network_timeout (rt_no_network "sagecell") "sagecell" host_with_B_live).
  - vm_compute. reflexivity.
  - intros _. reflexivity.
  - intros w0. reflexivity.
Defined.

Lemma clone_clean_slate_snapshot_witness :
  ∃ w', SCLXC.clone rt_ok "sc-0B" "sc-1B" true false host_with_B_live
        = (w', Ok "sc-1B").
Proof.
  apply (proj2 (proj2 (clone_clean_slate_snapshot rt_ok "sc-0B" "sc-1B" true false
                         host_with_B_live)));
    [reflexivity|vm_compute; reflexivity|discriminate|intros; reflexivity..].
Defined.

Lemma clone_shuts_down_running_source_witness :
  ∃ w1 w2 src between later,
    SCLXC.shutdown rt_ok "sc-0B" host_with_B_live = (w1, Ok tt)
    ∧ trace w1 = EvLxc "sc-0B" (OpShutdown timeout) :: trace host_with_B_live
    ∧ SCLXC.destroy rt_ok "sc-0A" w1 = (w2, Ok tt)
    ∧ containers w2 !! "sc-0B" = Some src
    ∧ running src = false
    ∧ containers (SCLXC.clone rt_ok "sc-0B" "sc-0A" true false host_with_B_live).1
        !! "sc-0A" = Some (fresh_clone true src)
    ∧ trace (SCLXC.clone rt_ok "sc-0B" "sc-0A" true false host_with_B_live).1
      = later ++ EvLxc "sc-0B" (OpClone "sc-0A")
          :: between ++ EvLxc "sc-0B" (OpShutdown timeout) :: trace host_with_B_live
    ∧ is_running_in (SCLXC.clone rt_ok "sc-0B" "sc-0A" true false host_with_B_live).1
        "sc-0B" = false.
Proof.
  apply (proj1 (clone_shuts_down_running_source rt_ok "sc-0B" "sc-0A" true
                  host_with_B_live ltac:(vm_compute; reflexivity))
           _ "sc-0A").
  vm_compute. reflexivity.
Defined.



(** C1 fails as stated: with pool B live, the configuration written at
    the cutover to pool A is the document of both pools, not of pool A,
    and names the old node sc-0B. *)
Lemma cutover_config_counterexample :
  choose_pools host_with_B_live = (host_with_B_live, Ok (nodes_A, nodes_B))
  ∧ (cutover rt_ok nodes_A host_with_B_live).2 = Ok tt
  ∧ host_files (cutover rt_ok nodes_A host_with_B_live).1 !! haproxy_cfg
    = Some (haproxy_config (nodes_A ++ nodes_B) false)
  ∧ haproxy_config (nodes_A ++ nodes_B) false ≠ haproxy_config nodes_A false
  ∧ PyStr.contains "sc-0B" (haproxy_config (nodes_A ++ nodes_B) false) = true.
Proof.
  split_and!; try (vm_compute; reflexivity).
  intros H. apply (f_equal (PyStr.contains "sc-0B")) in H. vm_compute in H.
  discriminate H.
Qed.

Lemma cutover_references_defined_nodes_witness :
  host_files (cutover rt_ok nodes_A host_with_B_live).1 !! haproxy_cfg
  = Some (haproxy_config
            (List.filter (is_defined_in (cutover rt_ok nodes_A host_with_B_live).1)
               all_nodes)
            (is_defined_in (cutover rt_ok nodes_A host_with_B_live).1 lxcn_tester)).
Proof.
  refine (proj1 (cutover_references_defined_nodes rt_ok deploy_args host_with_B_live
                   nodes_A nodes_B (cutover rt_ok nodes_A host_with_B_live).1 _ _));
    vm_compute; reflexivity.
Defined.





(** Two runs in a row from the host with pool B live. *)
Lemma consecutive_rollouts_alternate_witness :
  nodes_B = nodes_B ∧ nodes_A = nodes_A ∧ ∀ n, n ∈ nodes_A → n ∉ nodes_B.
Proof.
  apply (consecutive_rollouts_alternate rt_ok deploy_args host_with_B_live
           (main rt_ok deploy_args host_with_B_live).1
           (main rt_ok deploy_args host_with_B_live).1
           nodes_A nodes_B nodes_B nodes_A);
    first [vm_compute; reflexivity | intros n _; reflexivity].
Defined.

(** * Further properties *)

(** ** The configuration document beyond the compute backend *)

Lemma before_static_lines :
  concat (map Config.lines before_static)
  = removelast (concat (map Config.lines before_static)) ++ ["backend static"].
Proof. vm_compute. reflexivity. Qed.

(** X1: for a non-empty list of node names without line feeds, the
    [backend static] section of the document has exactly one server line
    per node, in the order of the nodes. *)
Theorem static_backend_one_line_per_node (nodes : list string) (tester : bool) :
  nodes ≠ [] →
  Forall (λ n, Config.single_line n = true) nodes →
  Config.servers "backend static" (haproxy_config nodes tester)
  = map Config.static_line nodes.
Proof.
  intros Hne Hnodes. unfold Config.servers. rewrite config_lines by done.
  rewrite before_static_lines, <- app_assoc.
  rewrite ConfigFacts.find_section_skip by (vm_compute; reflexivity).
  cbn [app]. rewrite find_section_here by reflexivity.
  rewrite ConfigFacts.section_body_skip
    by (apply ConfigFacts.forallb_map_const; intros; reflexivity).
  unfold before_servers. cbn [app].
  rewrite section_body_cons by reflexivity.
  change (Config.section_body ("backend compute" :: ?l)) with (@nil string).
  rewrite List.filter_app, ConfigFacts.filter_map_all by (intros; reflexivity).
  change (List.filter Config.is_server_line [EmptyString]) with (@nil string).
  by rewrite app_nil_r.
Qed.

Lemma static_backend_one_line_per_node_witness :
  Config.servers "backend static" (haproxy_config ["sc-0B"; "sc-1B"] false)
  = map Config.static_line ["sc-0B"; "sc-1B"].
Proof.
  apply (static_backend_one_line_per_node ["sc-0B"; "sc-1B"] false).
  - discriminate.
  - repeat constructor.
Defined.

(** X2: whatever the nodes (names without line feeds, the list possibly
    empty), the document has a [backend compute_test] section exactly when
    the tester container is defined, and its server lines are then the
    primary and the backup line of the tester alone. *)
Theorem tester_backend_servers (nodes : list string) (tester : bool) :
  Forall (λ n, Config.single_line n = true) nodes →
  Config.servers "backend compute_test" (haproxy_config nodes tester)
  = if tester
    then [Config.primary_line lxcn_tester; Config.backup_line lxcn_tester]
    else [].
Proof.
  intros Hnodes. destruct (decide (nodes = [])) as [->|Hne].
  { destruct tester; vm_compute; reflexivity. }
  unfold Config.servers. rewrite config_lines by done.
  rewrite ConfigFacts.find_section_skip by (vm_compute; reflexivity).
  rewrite ConfigFacts.find_section_skip
    by (apply ConfigFacts.forallb_map_const; intros; reflexivity).
  rewrite ConfigFacts.find_section_skip by (vm_compute; reflexivity).
  rewrite !ConfigFacts.find_section_skip
    by (apply ConfigFacts.forallb_map_const; intros; reflexivity).
  destruct tester; vm_compute; reflexivity.
Qed.

Lemma tester_backend_servers_witness :
  Config.servers "backend compute_test" (haproxy_config ["sc-0A"] true)
  = [Config.primary_line lxcn_tester; Config.backup_line lxcn_tester].
Proof.
  apply (tester_backend_servers ["sc-0A"] true). repeat constructor.
Defined.

Lemma string_append_assoc (a b c : string) : (a +:+ b) +:+ c = a +:+ b +:+ c.
Proof.
  induction a as [|ch a IH]; [done|].
  change (String ch ((a +:+ b) +:+ c) = String ch (a +:+ b +:+ c)). by f_equal.
Qed.

Lemma join_snoc sep (l : list string) x :
  l ≠ [] → PyStr.join sep (l ++ [x]) = PyStr.join sep l +:+ sep +:+ x.
Proof.
  induction l as [|y [|z l] IH]; intros Hne; [done|reflexivity|].
  change (PyStr.join sep ((y :: z :: l) ++ [x]))
    with (y +:+ sep +:+ PyStr.join sep ((z :: l) ++ [x])).
  rewrite IH by done.
  change (PyStr.join sep (y :: z :: l)) with (y +:+ sep +:+ PyStr.join sep (z :: l)).
  by rewrite !string_append_assoc.
Qed.

(** X3: for every list of nodes and either state of the tester, the
    document starts with the fixed global and defaults block and ends
    with the statistics listener; with no node and no tester it is these
    two blocks and nothing else. *)
Theorem document_header_and_stats (nodes : list string) (tester : bool) :
  (∃ middle,
     haproxy_config nodes tester
     = HAProxy_header +:+ PyStr.nl +:+ middle +:+ HAProxy_stats)
  ∧ haproxy_config [] false = HAProxy_header +:+ PyStr.nl +:+ HAProxy_stats.
Proof.
  split; [|reflexivity].
  unfold haproxy_config, haproxy_lines.
  set (main := match nodes with
               | [] => []
               | _ :: _ => map (expand_line nodes) (PyStr.splitlines main_section)
               end).
  set (test := if tester then [test_section] else []).
  destruct (main ++ test) as [|m ms] eqn:Hmid.
  - exists EmptyString. apply app_eq_nil in Hmid as [-> ->]. reflexivity.
  - exists (PyStr.join PyStr.nl (m :: ms) +:+ PyStr.nl).
    rewrite (app_assoc main test), Hmid.
    change ([HAProxy_header] ++ (m :: ms) ++ [HAProxy_stats])
      with (HAProxy_header :: ((m :: ms) ++ [HAProxy_stats])).
    change (PyStr.join PyStr.nl (HAProxy_header :: (m :: ms) ++ [HAProxy_stats]))
      with (HAProxy_header +:+ PyStr.nl
            +:+ PyStr.join PyStr.nl ((m :: ms) ++ [HAProxy_stats])).
    rewrite join_snoc by done. by rewrite !string_append_assoc.
Qed.

(** ** Regenerating the configuration: files and failures *)

Lemma bind_Raise_cases {A B} (m : M A) (k : A → M B) w w' e :
  bind m k w = (w', Raise e) →
  m w = (w', Raise e) ∨ ∃ w1 a, m w = (w1, Ok a) ∧ k a w1 = (w', Raise e).
Proof.
  unfold bind. destruct (m w) as [w1 [a|e1]]; intros H; [eauto|left; congruence].
Qed.

Global Instance host_files_outside_preorder paths : PreOrder (host_files_outside paths).
Proof.
  split; [done|]. intros w1 w2 w3 H1 H2 p Hp. by rewrite H2, H1.
Qed.

Global Instance host_files_outside_quiet paths : Quiet (host_files_outside paths).
Proof. by split; [apply _|..]. Qed.

Lemma append_file_outside paths path content :
  path ∈ paths → keeps (host_files_outside paths) (append_file path content).
Proof. intros Hp w p Hn. simpl. apply lookup_insert_ne. by intros ->. Qed.

Lemma restart_haproxy_unfold rt nodes :
  restart_haproxy rt nodes =
  (let* version := check_output rt "haproxy -v" in
   when (PyStr.startswith "HA-Proxy version 1.4" version)
     (log_info "HAProxy is too old, installing from backports" >>
      check_call rt "apt-get install --target-release trusty-backports haproxy") >>
   try_except_CalledProcessError
     (check_call rt ("host " +:+ lxcn_sagecell))
     (log_info "making container names resolvable to IP addresses" >>
      append_file "/etc/resolvconf/resolv.conf.d/head"
        ("nameserver 10.0.3.1" +:+ PyStr.nl) >>
      check_call rt "resolvconf -u" >>
      check_call rt ("host " +:+ lxcn_sagecell)) >>
   publish rt nodes).
Proof. reflexivity. Qed.

Section Regeneration.

Variable rt : Runtime.


Lemma check_call_cases command w :
  check_call rt command w
  = (emit (EvExec (format_map_users command))
       (emit (EvLog DEBUG ("executing " +:+ format_map_users command)) w),
     match sh_status rt
             (emit (EvLog DEBUG ("executing " +:+ format_map_users command)) w)
             (format_map_users command) with
     | O => Ok tt
     | S _ => Raise (CalledProcessError (format_map_users command))
     end).
Proof.
  unfold check_call, bind, log_debug, modify. by destruct (sh_status _ _ _).
Qed.

Lemma check_call_Raise command w w' e :
  check_call rt command w = (w', Raise e) →
  e = CalledProcessError (format_map_users command) ∧ host_files w' = host_files w.
Proof.
  rewrite check_call_cases. destruct (sh_status _ _ _); intros [= <- <-]; done.
Qed.

Lemma check_call_Ok command w w' :
  check_call rt command w = (w', Ok tt) → host_files w' = host_files w.
Proof. rewrite check_call_cases. destruct (sh_status _ _ _); by intros [= <-]. Qed.

Lemma check_output_Raise command w w' e :
  check_output rt command w = (w', Raise e) →
  e = CalledProcessError (format_map_users command).
Proof.
  unfold check_output, bind, log_debug, modify.
  destruct (sh_status _ _ _); intros [= <- <-]; done.
Qed.

(** What the statements from the generation of the document on do to the
    files of the host. *)
Lemma publish_cases nodes w w' r :
  publish rt nodes w = (w', r) →
  let document := haproxy_config (List.filter (is_defined_in w) nodes)
                    (is_defined_in w lxcn_tester) in
  let entry := "@reboot root sleep "
               +:+ PyStr.str_nat (start_delay
                                  * (length (List.filter (is_defined_in w) nodes) + 2))
               +:+ "; service haproxy start" +:+ PyStr.nl in
  (r = Ok tt
   ∧ host_files w' = <[cron_haproxy := entry]> (<[haproxy_cfg := document]> (host_files w)))
  ∨ (r = Raise (CalledProcessError "service haproxy reload")
     ∧ host_files w' = <[haproxy_cfg := document]> (host_files w)).
Proof.
  unfold publish. intros H.
  rewrite (bind_Ok _ _ w _ tt) in H by reflexivity.
  rewrite (bind_Ok _ _ _ _ _ eq_refl) in H.
  rewrite (bind_Ok _ _ _ _ _ eq_refl) in H.
  rewrite (bind_Ok _ _ _ _ tt eq_refl) in H.
  unfold bind in H. rewrite check_call_cases in H.
  destruct (sh_status _ _ _); injection H as <- <-; [left|right]; done.
Qed.

(** X5: a regeneration that returns has written, as the HA-Proxy
    configuration, the document of the given nodes that are defined, in
    the given order, with the test section exactly when the tester is
    defined; has written a cron entry whose delay is [start_delay] times
    the number of these nodes plus two; and has left the resolver head as
    it was or with one name server line appended. *)
Theorem restart_haproxy_writes (nodes : list string) (w w' : World) :
  restart_haproxy rt nodes w = (w', Ok tt) →
  host_files w' !! haproxy_cfg
    = Some (haproxy_config (List.filter (is_defined_in w) nodes)
              (is_defined_in w lxcn_tester))
  ∧ host_files w' !! cron_haproxy
    = Some ("@reboot root sleep "
            +:+ PyStr.str_nat (start_delay
                               * (length (List.filter (is_defined_in w) nodes) + 2))
            +:+ "; service haproxy start" +:+ PyStr.nl)
  ∧ (host_files w' !! resolv_head = host_files w !! resolv_head
     ∨ host_files w' !! resolv_head
       = Some (default EmptyString (host_files w !! resolv_head)
               +:+ "nameserver 10.0.3.1" +:+ PyStr.nl)).
Proof.
  rewrite restart_haproxy_unfold. intros H.
  apply bind_Ok_inv in H as (wa & version & Ha & H).
  apply bind_Ok_inv in H as (wb & [] & Hb & H).
  apply bind_Ok_inv in H as (wc & [] & Hc & H).
  assert (same_registry w wc) as Hreg.
  { etrans; [eapply keeps_result; [|exact Ha]; apply check_output_keeps, _|].
    etrans; [eapply keeps_result; [|exact Hb]|].
    { apply keeps_when; [apply _|]. keeps_tac. }
    eapply keeps_result; [|exact Hc]. keeps_tac. }
  assert (host_files wb = host_files w) as Hfb.
  { transitivity (host_files wa).
    - eapply (keeps_result same_host_files); [|exact Hb].
      apply keeps_when; [apply _|]. keeps_tac.
    - eapply (keeps_result same_host_files); [|exact Ha]. apply check_output_keeps, _. }
  assert (host_files wc = host_files w
          ∨ host_files wc
            = <[resolv_head := default EmptyString (host_files w !! resolv_head)
                               +:+ "nameserver 10.0.3.1" +:+ PyStr.nl]> (host_files w))
    as Hfc.
  { unfold try_except_CalledProcessError in Hc.
    destruct (check_call rt ("host " +:+ lxcn_sagecell) wb) as [w1 [[]|e]] eqn:Hhost.
    - injection Hc as <-. left. apply check_call_Ok in Hhost. congruence.
    - apply check_call_Raise in Hhost as [-> Hf1].
      right.
      rewrite (bind_Ok _ _ w1 _ tt) in Hc by reflexivity.
      rewrite (bind_Ok _ _ _ _ tt eq_refl) in Hc.
      apply bind_Ok_inv in Hc as (w2 & [] & H2%check_call_Ok & H3%check_call_Ok).
      rewrite H3, H2. simpl. by rewrite Hf1, Hfb. }
  apply publish_cases in H as [[_ Hw']|[[=] _]].
  assert (List.filter (is_defined_in wc) nodes = List.filter (is_defined_in w) nodes
          ∧ is_defined_in wc lxcn_tester = is_defined_in w lxcn_tester) as [Hn Ht].
  { unfold is_defined_in. by rewrite Hreg. }
  rewrite Hn, Ht in Hw'. rewrite Hw'. split_and!.
  - rewrite lookup_insert_ne by done. apply lookup_insert_eq.
  - apply lookup_insert_eq.
  - rewrite !lookup_insert_ne by done.
    destruct Hfc as [->| ->]; [by left|right]. apply lookup_insert_eq.
Qed.

(** The commands of [restart_haproxy] before the generation of the
    document raise for no command but their own, and a failure of the
    first look-up of the master is caught. *)
Lemma restart_haproxy_Raise_inv nodes w w' command :
  restart_haproxy rt nodes w = (w', Raise (CalledProcessError command)) →
  command = "haproxy -v"
  ∨ command = "apt-get install --target-release trusty-backports haproxy"
  ∨ command = "resolvconf -u"
  ∨ (command = "host sagecell"
     ∧ host_files w'
       = <[resolv_head := default EmptyString (host_files w !! resolv_head)
                          +:+ "nameserver 10.0.3.1" +:+ PyStr.nl]> (host_files w))
  ∨ (command = "service haproxy reload"
     ∧ host_files w' !! haproxy_cfg
       = Some (haproxy_config (List.filter (is_defined_in w) nodes)
                 (is_defined_in w lxcn_tester))
     ∧ host_files w' !! cron_haproxy = host_files w !! cron_haproxy).
Proof.
  rewrite restart_haproxy_unfold. intros H.
  apply bind_Raise_cases in H as [H|(wa & version & Ha & H)].
  { apply check_output_Raise in H. left. by injection H as ->. }
  assert (host_files wa = host_files w) as Hfa.
  { eapply (keeps_result same_host_files); [|exact Ha]. apply check_output_keeps, _. }
  apply bind_Raise_cases in H as [H|(wb & [] & Hb & H)].
  { unfold when in H. destruct (PyStr.startswith _ _); [|discriminate H].
    rewrite (bind_Ok _ _ wa _ tt) in H by reflexivity.
    apply check_call_Raise in H as [H _]. right. left. by injection H as ->. }
  assert (host_files wb = host_files w) as Hfb.
  { rewrite <- Hfa. eapply (keeps_result same_host_files); [|exact Hb].
    apply keeps_when; [apply _|]. keeps_tac. }
  apply bind_Raise_cases in H as [H|(wc & [] & Hc & H)].
  { unfold try_except_CalledProcessError in H.
    destruct (check_call rt ("host " +:+ lxcn_sagecell) wb) as [w1 [[]|e]] eqn:Hhost;
      [discriminate H|].
    apply check_call_Raise in Hhost as [-> Hf1].
    rewrite (bind_Ok _ _ w1 _ tt) in H by reflexivity.
    rewrite (bind_Ok _ _ _ _ tt eq_refl) in H.
    apply bind_Raise_cases in H as [H|(w2 & [] & H2%check_call_Ok & H)].
    - apply check_call_Raise in H as [H _]. right. right. left. by injection H as ->.
    - apply check_call_Raise in H as [H Hf3]. right. right. right. left.
      injection H as ->. split; [reflexivity|].
      rewrite Hf3, H2. simpl. by rewrite Hf1, Hfb. }
  assert (same_registry w wc) as Hreg.
  { etrans; [eapply keeps_result; [|exact Ha]; apply check_output_keeps, _|].
    etrans; [eapply keeps_result; [|exact Hb]|].
    { apply keeps_when; [apply _|]. keeps_tac. }
    eapply keeps_result; [|exact Hc]. keeps_tac. }
  assert (host_files_outside [resolv_head] wb wc) as Hout.
  { eapply keeps_result; [|exact Hc]. keeps_tac. apply append_file_outside. left. }
  apply publish_cases in H as [[[=] _]|[H Hw']].
  injection H as ->. right. right. right. right. split; [reflexivity|].
  assert (List.filter (is_defined_in wc) nodes = List.filter (is_defined_in w) nodes
          ∧ is_defined_in wc lxcn_tester = is_defined_in w lxcn_tester) as [Hn Ht].
  { unfold is_defined_in. by rewrite Hreg. }
  rewrite Hn, Ht in Hw'. rewrite Hw'. split.
  - apply lookup_insert_eq.
  - rewrite lookup_insert_ne by done. rewrite <- Hfb. apply Hout.
    by intros ?%list_elem_of_singleton.
Qed.

(** X6: when the reload of HA-Proxy fails, [restart_haproxy] raises after
    the new document has replaced the configuration, and the cron entry
    is as it was. *)
Theorem reload_failure_keeps_new_document (nodes : list string) (w w' : World) :
  restart_haproxy rt nodes w
    = (w', Raise (CalledProcessError "service haproxy reload")) →
  host_files w' !! haproxy_cfg
    = Some (haproxy_config (List.filter (is_defined_in w) nodes)
              (is_defined_in w lxcn_tester))
  ∧ host_files w' !! cron_haproxy = host_files w !! cron_haproxy.
Proof.
  intros H.
  by apply restart_haproxy_Raise_inv in H
    as [[=]|[[=]|[[=]|[[[=] _]|(_ & H1 & H2)]]]].
Qed.

(** X7: when the master cannot be resolved even after the name server
    line has been appended to the resolver head, [restart_haproxy] raises
    with that line appended to what the head held, and without having
    written the HA-Proxy configuration, which is as it was. *)
Theorem unresolved_master_keeps_configuration (nodes : list string) (w w' : World) :
  restart_haproxy rt nodes w = (w', Raise (CalledProcessError "host sagecell")) →
  host_files w' !! resolv_head
  = Some (default EmptyString (host_files w !! resolv_head)
          +:+ "nameserver 10.0.3.1" +:+ PyStr.nl)
  ∧ host_files w' !! haproxy_cfg = host_files w !! haproxy_cfg.
Proof.
  intros H.
  apply restart_haproxy_Raise_inv in H
    as [[=]|[[=]|[[=]|[[_ H]|([=] & _)]]]].
  rewrite H. split.
  - apply lookup_insert_eq.
  - by apply lookup_insert_ne.
Qed.

End Regeneration.

Lemma restart_haproxy_writes_witness :
  host_files (restart_haproxy rt_ok all_nodes host_with_B_live).1 !! haproxy_cfg
  = Some (haproxy_config (List.filter (is_defined_in host_with_B_live) all_nodes)
            (is_defined_in host_with_B_live lxcn_tester)).
Proof.
  refine (proj1 (restart_haproxy_writes rt_ok all_nodes host_with_B_live _ _)).
  vm_compute. reflexivity.
Defined.

Lemma reload_failure_keeps_new_document_witness :
  host_files (restart_haproxy (rt_host_command_fails "service haproxy reload")
                all_nodes host_with_B_live).1 !! haproxy_cfg
  = Some (haproxy_config (List.filter (is_defined_in host_with_B_live) all_nodes)
            (is_defined_in host_with_B_live lxcn_tester)).
Proof.
  refine (proj1 (reload_failure_keeps_new_document
                   (rt_host_command_fails "service haproxy reload")
                   all_nodes host_with_B_live _ _)).
  vm_compute. reflexivity.
Defined.

Lemma unresolved_master_keeps_configuration_witness :
  host_files (restart_haproxy (rt_host_command_fails "host sagecell")
                all_nodes host_serving_B).1 !! haproxy_cfg
  = host_files host_serving_B !! haproxy_cfg.
Proof.
  refine (proj2 (unresolved_master_keeps_configuration
                   (rt_host_command_fails "host sagecell") all_nodes host_serving_B
                   _ _)).
  vm_compute. reflexivity.
Defined.

(** ** The methods of [SCLXC]: contracts and failures *)

Section MethodContracts.

Variable rt : Runtime.

(** X8: [shutdown()] on a container that is not running returns at once
    and changes nothing; a [shutdown()] that returns leaves the container
    stopped; a [shutdown()] that raises has waited [timeout] seconds and
    leaves the container running; in every case the other containers are
    untouched and the same names are defined. *)
Theorem shutdown_contract (self : string) (w w' : World) (r : result unit) :
  SCLXC.shutdown rt self w = (w', r) →
  (is_running_in w self = false → w' = w ∧ r = Ok tt)
  ∧ (r = Ok tt → is_running_in w' self = false)
  ∧ (∀ e, r = Raise e →
       e = RuntimeError ("failed to shutdown " +:+ self)
       ∧ is_running_in w' self = true
       ∧ clock w' = clock w + timeout)
  ∧ same_outside [self] w w'
  ∧ same_defined w w'.
Proof.
  intros H. split_and!.
  - intros Hr. unfold SCLXC.shutdown in H.
    rewrite (bind_Ok _ _ w w false) in H by (unfold c.running, query; by rewrite Hr).
    by injection H as <- <-.
  - intros ->. by eapply shutdown_Ok_stopped.
  - intros e ->. unfold SCLXC.shutdown in H.
    rewrite (bind_Ok _ _ w w (is_running_in w self)) in H by reflexivity.
    destruct (is_running_in w self) eqn:Hr; [|discriminate H].
    unfold bind, c.shutdown in H. rewrite Hr in H. simpl in H.
    destruct (lxc_shutdown_ok rt w self); [discriminate H|].
    injection H as <- <-. split_and!; [done| |done].
    unfold is_running_in in *. done.
  - eapply keeps_result; [|exact H].
    apply shutdown_keeps, (same_outside_touches _ _ ltac:(left)).
  - eapply keeps_result; [|exact H]. apply shutdown_keeps, _.
Qed.

(** X9: [start()] does not touch the registry when the container is
    already running; a [start()] that returns leaves it running; a
    [start()] that raises for the start itself found it stopped and
    leaves the registry as it was; in every case the other containers are
    untouched and the same names are defined. *)
Theorem start_contract (self : string) (w w' : World) (r : result unit) :
  SCLXC.start rt self w = (w', r) →
  (is_running_in w self = true → containers w' = containers w)
  ∧ (r = Ok tt → is_running_in w' self = true)
  ∧ (r = Raise (RuntimeError ("failed to start " +:+ self)) →
       containers w' = containers w ∧ is_running_in w self = false)
  ∧ same_outside [self] w w'
  ∧ same_defined w w'.
Proof.
  intros H. split_and!.
  - intros Hr. unfold SCLXC.start in H.
    rewrite (bind_Ok _ _ w w true) in H by (unfold c.running, query; by rewrite Hr).
    rewrite (bind_Ok _ _ w w true) in H by reflexivity.
    destruct (c_get_ips_result rt self timeout w) as (w1 & ips & E & Hreg).
    rewrite (bind_Ok _ _ _ _ _ E) in H. by destruct ips; injection H as <- _.
  - intros ->. by eapply start_Ok_running.
  - intros ->.
    destruct (start_cases rt self w) as [(w1 & E & Hr & Hreg)|(w1 & r & E & _ & Hor)];
      rewrite H in E.
    + by injection E as <-.
    + injection E as <- <-. destruct Hor as [[=]|Hor].
      exfalso. apply (start_messages_differ (A:=unit) w w self). by rewrite Hor.
  - eapply keeps_result; [|exact H].
    apply start_keeps, (same_outside_touches _ _ ltac:(left)).
  - eapply keeps_result; [|exact H]. apply start_keeps, _.
Qed.

(** X10: a [destroy()] that raises has either failed to stop the
    container, which is then still running with the registry as it was,
    or failed to destroy it, and then the container is still defined but
    no longer running. *)
Theorem destroy_failure_modes (self : string) (w w' : World) (e : exn) :
  SCLXC.destroy rt self w = (w', Raise e) →
  (e = RuntimeError ("failed to stop " +:+ self)
   ∧ is_running_in w' self = true
   ∧ containers w' = containers w)
  ∨ (e = RuntimeError ("failed to destroy " +:+ self)
     ∧ is_defined_in w' self = true
     ∧ is_running_in w' self = false).
Proof.
  unfold SCLXC.destroy. intros H.
  rewrite (bind_Ok _ _ w w (is_defined_in w self)) in H by reflexivity.
  destruct (is_defined_in w self) eqn:Hd; [|discriminate H].
  rewrite (bind_Ok _ _ w _ tt) in H by reflexivity.
  set (w1 := emit _ w) in H.
  rewrite (bind_Ok _ _ w1 w1 (is_running_in w self)) in H by reflexivity.
  assert (∀ w2, is_defined_in w2 self = true → is_running_in w2 self = false →
            (let* ok := c.destroy rt self in
             if ok then ret tt
             else raise (RuntimeError ("failed to destroy " +:+ self))) w2
            = (w', Raise e) →
            e = RuntimeError ("failed to destroy " +:+ self)
            ∧ is_defined_in w' self = true ∧ is_running_in w' self = false) as Hlast.
  { intros w2 Hd2 Hr2. unfold bind, c.destroy. rewrite Hd2. simpl.
    destruct (lxc_destroy_ok rt w2 self); [discriminate|].
    by intros [= <- <-]. }
  destruct (is_running_in w self) eqn:Hr.
  - unfold bind at 1 in H. unfold c.stop in H.
    change (is_running_in w1 self) with (is_running_in w self) in H.
    rewrite Hr in H. simpl in H.
    destruct (lxc_stop_ok rt w1 self).
    + right. eapply Hlast; [| |exact H].
      * by rewrite is_defined_in_alter.
      * apply is_running_in_stopped.
    + left. by injection H as <- <-.
  - rewrite (bind_Ok _ _ w1 w1 true) in H by reflexivity.
    right. by eapply Hlast; [| |exact H].
Qed.

End MethodContracts.

Lemma shutdown_contract_witness :
  clock (SCLXC.shutdown (rt_shutdown_fails "sc-0B") "sc-0B" host_with_B_live).1
  = clock host_with_B_live + timeout.
Proof.
  refine (proj2 (proj2 (proj1 (proj2 (proj2
            (shutdown_contract (rt_shutdown_fails "sc-0B") "sc-0B" host_with_B_live _
               (Raise (RuntimeError "failed to shutdown sc-0B")) _))) _ eq_refl))).
  vm_compute. reflexivity.
Defined.

Lemma start_contract_witness :
  is_running_in (SCLXC.start rt_ok "sagecell" host_with_B_live).1 "sagecell" = true.
Proof.
  refine (proj1 (proj2 (start_contract rt_ok "sagecell" host_with_B_live _ (Ok tt) _))
            eq_refl).
  vm_compute. reflexivity.
Defined.

Lemma destroy_failure_modes_witness :
  (RuntimeError "failed to stop sc-0B" = RuntimeError "failed to stop sc-0B"
   ∧ is_running_in (SCLXC.destroy (rt_stop_fails "sc-0B") "sc-0B" host_with_B_live).1
       "sc-0B" = true
   ∧ containers (SCLXC.destroy (rt_stop_fails "sc-0B") "sc-0B" host_with_B_live).1
     = containers host_with_B_live)
  ∨ (RuntimeError "failed to stop sc-0B" = RuntimeError "failed to destroy sc-0B"
     ∧ is_defined_in (SCLXC.destroy (rt_stop_fails "sc-0B") "sc-0B" host_with_B_live).1
         "sc-0B" = true
     ∧ is_running_in (SCLXC.destroy (rt_stop_fails "sc-0B") "sc-0B" host_with_B_live).1
         "sc-0B" = false).
Proof.
  refine (destroy_failure_modes (rt_stop_fails "sc-0B") "sc-0B" host_with_B_live _
            (RuntimeError "failed to stop sc-0B") _).
  vm_compute. reflexivity.
Defined.

Section Commands.

Variable rt : Runtime.




End Commands.


(** ** Saving the log of a container *)

Lemma readlines_nil (s : string) : PyStr.readlines s = [] → s = EmptyString.
Proof.
  destruct s as [|ch s]; [done|]. simpl.
  destruct (Ascii.eqb ch PyStr.LF); [done|].
  by destruct (PyStr.readlines s).
Qed.

Lemma substring_nonempty (s : string) (n m : nat) :
  n < String.length s → 0 < m → String.substring n m s ≠ EmptyString.
Proof.
  revert n. induction s as [|ch s IH]; intros n Hn Hm; simpl in *; [lia|].
  destruct n as [|n].
  - by destruct m; [lia|].
  - apply IH; lia.
Qed.

Lemma drop_nonempty (s : string) (n : nat) :
  n < String.length s → PyStr.drop n s ≠ EmptyString.
Proof. intros Hn. unfold PyStr.drop. apply substring_nonempty; lia. Qed.

Lemma file_lookup (self path : string) (w : World) (cont : Container) :
  containers w !! self = Some cont →
  c.file self path w = (w, Ok (rootfs cont !! path)).
Proof. intros H. unfold c.file, query. by rewrite H. Qed.

(** X12: for a container whose log is not empty, and whose name and
    time stamps (the first [stamp_length] bytes of the log and of its
    last line) are made of printable ASCII characters without a slash,
    [save_logs] copies the log, byte for byte, to a file of the
    directory [container_logs] that is named after the two stamps and
    the container; the directory exists afterwards, and the script
    writes nothing else. *)
Theorem save_logs_copies (self content : string) (cont : Container) (w : World) :
  containers w !! self = Some cont →
  rootfs cont !! sagecell_log = Some content →
  content ≠ EmptyString →
  plain_name self = true →
  (String.length self ≤ 200)%nat →
  plain_name (PyStr.take stamp_length content) = true →
  (∀ l, last (PyStr.readlines (PyStr.drop (String.length content - 2 ^ 16) content))
        = Some l →
        plain_name (PyStr.take stamp_length l) = true) →
  ∃ w' l,
    SCLXC.save_logs self w = (w', Ok tt)
    ∧ last (PyStr.readlines (PyStr.drop (String.length content - 2 ^ 16) content)) = Some l
    ∧ host_files w'
      = <["container_logs/" +:+ PyStr.take stamp_length content +:+ " to "
          +:+ PyStr.take stamp_length l +:+ " on " +:+ self := content]> (host_files w)
    ∧ "container_logs" ∈ host_dirs w'
    ∧ (∀ d, d ∈ host_dirs w' → d = "container_logs" ∨ d ∈ host_dirs w)
    ∧ containers w' = containers w
    ∧ clock w' = clock w
    ∧ trace w' = trace w.
Proof.
  intros Hc Hlog Hne _ _ _ _. unfold SCLXC.save_logs.
  rewrite (bind_Ok _ _ w w (Some content))
    by (rewrite (file_lookup _ _ _ _ Hc); by rewrite <- Hlog).
  set (tail := PyStr.drop _ content).
  assert (is_Some (last (PyStr.readlines tail))) as [l Hl].
  { apply last_is_Some. intros Hnil%readlines_nil. revert Hnil.
    apply drop_nonempty.
    assert (∀ k, k ≠ 0 → String.length content - k < String.length content) as Hk.
    { intros k Hk. destruct content; [done|]. cbn [String.length]. lia. }
    apply Hk, Nat.pow_nonzero. lia. }
  rewrite Hl. clearbody tail.
  rewrite (bind_Ok _ _ w w (bool_decide ("container_logs" ∈ host_dirs w)))
    by reflexivity.
  destruct (bool_decide_reflect ("container_logs" ∈ host_dirs w)) as [Hin|Hin].
  - eexists _, l. split; [reflexivity|]. split; [reflexivity|].
    cbn [when negb bind ret query modify write_file fst snd host_files host_dirs
         containers clock trace set_host_files].
    split_and!; try done. auto.
  - eexists _, l. split; [reflexivity|]. split; [reflexivity|].
    cbn [when negb bind ret query modify write_file fst snd host_files host_dirs
         containers clock trace set_host_files add_host_dir].
    split_and!; try done; [set_solver|]. intros d Hd. set_solver.
Qed.

Section Retirement.

Variable rt : Runtime.

(** X13: a container whose log is an empty file makes [save_logs] raise
    [IndexError] with nothing done, so that the loop that retires the old
    nodes stops at such a node with the host as it was: neither this node
    nor a later one is destroyed. *)
Theorem empty_log_stops_retirement (self : string) (rest : list string)
    (cont : Container) (w : World) :
  containers w !! self = Some cont →
  rootfs cont !! sagecell_log = Some EmptyString →
  SCLXC.save_logs self w = (w, Raise (IndexError "list index out of range"))
  ∧ finalize rt (self :: rest) w = (w, Raise (IndexError "list index out of range")).
Proof.
  intros Hc Hlog.
  assert (SCLXC.save_logs self w = (w, Raise (IndexError "list index out of range")))
    as Hs.
  { unfold SCLXC.save_logs.
    rewrite (bind_Ok _ _ w w (Some EmptyString))
      by (rewrite (file_lookup _ _ _ _ Hc); by rewrite <- Hlog).
    reflexivity. }
  split; [done|]. unfold finalize. cbn [for_each].
  rewrite (bind_Raise _ _ w w (IndexError "list index out of range")); [done|].
  by rewrite (bind_Raise _ _ w w (IndexError "list index out of range")).
Qed.

End Retirement.

Lemma save_logs_copies_witness :
  ∃ w' l,
    SCLXC.save_logs "sc-0B" host_with_B_live = (w', Ok tt)
    ∧ last (PyStr.readlines
              (PyStr.drop
                 (String.length ("2014-12-28 15:00:02,315 started" +:+ PyStr.nl
                                 +:+ "2014-12-29 09:30:00,001 served" +:+ PyStr.nl)
                  - 2 ^ 16)
                 ("2014-12-28 15:00:02,315 started" +:+ PyStr.nl
                  +:+ "2014-12-29 09:30:00,001 served" +:+ PyStr.nl))) = Some l
    ∧ host_files w'
      = <["container_logs/"
          +:+ PyStr.take stamp_length
                ("2014-12-28 15:00:02,315 started" +:+ PyStr.nl
                 +:+ "2014-12-29 09:30:00,001 served" +:+ PyStr.nl)
          +:+ " to " +:+ PyStr.take stamp_length l +:+ " on " +:+ "sc-0B"
          := "2014-12-28 15:00:02,315 started" +:+ PyStr.nl
             +:+ "2014-12-29 09:30:00,001 served" +:+ PyStr.nl]>
          (host_files host_with_B_live)
    ∧ "container_logs" ∈ host_dirs w'
    ∧ (∀ d, d ∈ host_dirs w' → d = "container_logs" ∨ d ∈ host_dirs host_with_B_live)
    ∧ containers w' = containers host_with_B_live
    ∧ clock w' = clock host_with_B_live
    ∧ trace w' = trace host_with_B_live.
Proof.
  refine (save_logs_copies "sc-0B" _ serving_container host_with_B_live _ _ _ _ _ _ _).
  - vm_compute. reflexivity.
  - vm_compute. reflexivity.
  - discriminate.
  - vm_compute. reflexivity.
  - vm_compute. lia.
  - vm_compute. reflexivity.
  - intros l Hl. vm_compute in Hl. injection Hl as <-. vm_compute. reflexivity.
Defined.

Lemma empty_log_stops_retirement_witness :
  finalize rt_ok ["sc-0A"; "sc-1A"]
    (mkWorld (<["sc-0A" := container_with_log EmptyString]>
                (<["sc-1A" := stopped_container]> ∅)) ∅ ∅ 0 [])
  = (mkWorld (<["sc-0A" := container_with_log EmptyString]>
                (<["sc-1A" := stopped_container]> ∅)) ∅ ∅ 0 [],
     Raise (IndexError "list index out of range")).
Proof.
  refine (proj2 (empty_log_stops_retirement rt_ok "sc-0A" ["sc-1A"]
                   (container_with_log EmptyString) _ _ _)).
  - vm_compute. reflexivity.
  - vm_compute. reflexivity.
Defined.

(** ** The rotation: what the new nodes are and how long the old ones get *)

Global Instance clock_advances_preorder : PreOrder clock_advances.
Proof. split; unfold clock_advances; [by intros w|intros w1 w2 w3; lia]. Qed.

Global Instance clock_advances_quiet : Quiet clock_advances.
Proof. split; [apply _|..]; unfold clock_advances; intros; simpl; lia. Qed.

Global Instance clock_advances_touches name : Touches clock_advances name.
Proof.
  split; [split; [apply _|..]|..]; unfold clock_advances; intros; simpl; lia.
Qed.

Section RotationOutcome.

Variable rt : Runtime.

Lemma start_registry (self : string) (w w' : World) (r : result unit) :
  SCLXC.start rt self w = (w', r) →
  containers w' = containers w
  ∨ containers w' = alter (set_running true) self (containers w).
Proof.
  unfold SCLXC.start. intros H.
  rewrite (bind_Ok _ _ w w (is_running_in w self)) in H by reflexivity.
  destruct (c.start rt self w) as [w0 [b|e]] eqn:Es;
    [|unfold c.start in Es; by repeat case_match].
  assert (containers w0 = containers w ∧ b = false
          ∨ containers w0 = alter (set_running true) self (containers w) ∧ b = true)
    as Hw0.
  { unfold c.start in Es.
    destruct (is_defined_in w self && lxc_start_ok rt w self);
      injection Es as <- <-; auto. }
  destruct (is_running_in w self).
  - rewrite (bind_Ok _ _ w w true) in H by reflexivity.
    destruct (c_get_ips_result rt self timeout w) as (w1 & ips & E & Hreg).
    rewrite (bind_Ok _ _ _ _ _ E) in H. left.
    by destruct ips; injection H as <- _.
  - rewrite (bind_Ok _ _ _ _ _ Es) in H.
    destruct Hw0 as [[Hw0 ->]|[Hw0 ->]].
    + left. by injection H as <- _.
    + destruct (c_get_ips_result rt self timeout w0) as (w1 & ips & E & Hreg).
      rewrite (bind_Ok _ _ _ _ _ E) in H. right. rewrite <- Hw0.
      by destruct ips; injection H as <- _.
Qed.

(** X14: when the loop that clones and starts the new nodes returns,
    every node of the list is running and is configured to start with
    the host: [lxc.start.auto] is 1 and [lxc.start.delay] is
    [start_delay] in its saved configuration. *)
Theorem provision_configures_nodes (l : list string) (w w' : World) :
  NoDup l → lxcn_sagecell ∉ l →
  provision rt l w = (w', Ok tt) →
  ∀ n, n ∈ l →
    ∃ cont, containers w' !! n = Some cont
      ∧ running cont = true
      ∧ saved_config cont !! "lxc.start.auto" = Some "1"
      ∧ saved_config cont !! "lxc.start.delay" = Some (PyStr.str_nat start_delay).
Proof.
  revert w. induction l as [|n rest IH]; intros w Hnd Hm H m Hin.
  { by apply elem_of_nil in Hin. }
  apply NoDup_cons in Hnd as [Hn Hnd].
  apply not_elem_of_cons in Hm as [Hmn Hm].
  rewrite provision_cons in H.
  apply bind_Ok_inv in H as (w2 & [] & H1 & H2).
  apply elem_of_cons in Hin as [->|Hin]; [|by eapply IH].
  apply bind_Ok_inv in H1 as (w1 & cl & Hc & Hs).
  destruct (clone_Ok_inv _ _ _ _ _ _ _ _ Hc)
    as (-> & w00 & w01 & w02 & src & _ & _ & _ & _ & _ & Hreg & _).
  pose proof (start_Ok_running _ _ _ _ Hs) as Hrun.
  destruct (provision_frame _ _ _ _ _ H2) as (Hout & _).
  assert (n ∉ lxcn_sagecell :: rest) as Hnot.
  { apply not_elem_of_cons. split; [by intros ->|done]. }
  unfold is_running_in in Hrun. rewrite (Hout n Hnot).
  assert (∃ b, containers w2 !! n = Some (set_running b (fresh_clone true src)))
    as [b Hb].
  { destruct (start_registry _ _ _ _ Hs) as [-> | ->]; rewrite Hreg.
    - exists false. by rewrite lookup_insert_eq.
    - exists true. by rewrite lookup_alter_eq, lookup_insert_eq. }
  rewrite Hb in Hrun |- *. eexists. split; [done|]. simpl in *.
  split_and!; [done|..].
  - rewrite lookup_insert_ne by done. by rewrite lookup_insert_eq.
  - by rewrite lookup_insert_eq.
Qed.

Lemma clone_source_stopped (self clone_name : string) (autostart update_first : bool)
    (w w' : World) (r : string) :
  self ≠ clone_name →
  SCLXC.clone rt self clone_name autostart update_first w = (w', Ok r) →
  is_running_in w' self = false.
Proof.
  intros Hne H.
  destruct (clone_Ok_inv _ _ _ _ _ _ _ _ H)
    as (_ & w0 & w1 & w2 & src & _ & Hsh & Hd & _ & _ & Hreg & _).
  apply shutdown_Ok_stopped in Hsh.
  assert (same_outside [clone_name] w1 w2) as Hout.
  { eapply keeps_result; [|exact Hd].
    apply destroy_keeps, (same_outside_touches _ _ ltac:(left)). }
  unfold is_running_in in *. rewrite Hreg, lookup_insert_ne by done.
  rewrite (Hout self); [done|]. by intros ->%list_elem_of_singleton.
Qed.

(** X15: when the loop that clones and starts the new nodes returns
    after at least one node, the master is stopped. *)
Theorem provision_leaves_master_stopped (l : list string) (w w' : World) :
  l ≠ [] → lxcn_sagecell ∉ l →
  provision rt l w = (w', Ok tt) →
  is_running_in w' lxcn_sagecell = false.
Proof.
  revert w. induction l as [|n rest IH]; intros w Hne Hm H; [done|].
  apply not_elem_of_cons in Hm as [Hmn Hm].
  rewrite provision_cons in H.
  apply bind_Ok_inv in H as (w2 & [] & H1 & H2).
  destruct rest as [|n2 rest]; [|by eapply IH].
  injection H2 as <-.
  apply bind_Ok_inv in H1 as (w1 & cl & Hc & Hs).
  pose proof (clone_value _ _ _ _ _ _ _ _ Hc) as ->.
  apply clone_source_stopped in Hc; [|done].
  assert (same_outside [n] w1 w2) as Hout.
  { eapply keeps_result; [|exact Hs].
    apply start_keeps, (same_outside_touches _ _ ltac:(left)). }
  rewrite (same_outside_running _ _ _ _ Hout); [done|].
  by intros <-%list_elem_of_singleton.
Qed.



Lemma drain_value (old : list string) (b v : bool) (w w' : World) :
  drain rt old b w = (w', Ok v) →
  v = b || existsb (is_defined_in w) old.
Proof.
  revert b w. induction old as [|n rest IH]; intros b w H.
  { injection H as _ <-. by rewrite orb_false_r. }
  cbn [drain existsb] in *.
  rewrite (bind_Ok _ _ w w (is_defined_in w n)) in H by reflexivity.
  destruct (is_defined_in w n).
  - apply bind_Ok_inv in H as (w1 & [] & _ & H). apply IH in H.
    rewrite H. simpl. by rewrite orb_true_r.
  - by apply IH in H.
Qed.

(** X17: when an old node is defined and [--nodelay] is not given, the
    wait that follows the cutover returns only after [start_delay] and
    then [deploy_delay] seconds at least, and it leaves the master
    stopped. *)
Theorem draining_waits_for_users (args : Args) (old : list string) (w w' : World) :
  args_nodelay args = false →
  (∃ o, o ∈ old ∧ is_defined_in w o = true) →
  draining rt args old w = (w', Ok tt) →
  (clock w + start_delay + deploy_delay ≤ clock w')%nat
  ∧ is_running_in w' lxcn_sagecell = false.
Proof.
  intros Hnd (o & Ho & Hdef) H. unfold draining in H.
  apply bind_Ok_inv in H as (w1 & [] & Hw & H).
  apply bind_Ok_inv in H as (w2 & need & Hdr & H).
  assert (clock w1 = clock w + start_delay) as Hc1 by (by injection Hw as <-).
  assert (need = true) as ->.
  { rewrite (drain_value _ _ _ _ _ Hdr). simpl. apply existsb_exists.
    exists o. split; [by apply list_elem_of_In|]. by injection Hw as <-. }
  assert (clock_advances w1 w2) as Hc2.
  { eapply keeps_result; [|exact Hdr]. apply drain_keeps; [exact clock_advances_quiet|].
    intros n _. apply touches_alters. }
  unfold wait_for_users in H. rewrite Hnd in H. cbn [andb negb when] in H.
  apply bind_Ok_inv in H as (w3 & [] & Hlog & H).
  apply bind_Ok_inv in H as (w4 & [] & Hwait & H).
  apply bind_Ok_inv in H as (w5 & [] & Hstart & H).
  assert (clock w4 = clock w2 + deploy_delay) as Hc4.
  { injection Hlog as <-. by injection Hwait as <-. }
  assert (clock_advances w4 w5) as Hc5.
  { eapply keeps_result; [|exact Hstart]. apply start_keeps, _. }
  assert (clock_advances w5 w') as Hc6.
  { eapply keeps_result; [|exact H]. apply shutdown_keeps, _. }
  split; [unfold clock_advances in *; lia|]. by eapply shutdown_Ok_stopped.
Qed.

(** X18: with [--nodelay] the wait that follows the cutover makes no
    call into LXC but on the old nodes, and leaves the master as it
    was. *)
Theorem nodelay_leaves_master_alone (args : Args) (old : list string) (w w' : World)
    (r : result unit) :
  args_nodelay args = true →
  lxcn_sagecell ∉ old →
  draining rt args old w = (w', r) →
  lxc_calls_within old w w'
  ∧ containers w' !! lxcn_sagecell = containers w !! lxcn_sagecell.
Proof.
  intros Hnd Hm H.
  assert (∀ R : relation World, Quiet R → (∀ n, n ∈ old → Alters R n) →
            keeps R (draining rt args old)) as Hk.
  { intros R HQ HA. unfold draining. apply keeps_bind; [apply _| |intros _].
    - by apply warm_up_keeps.
    - apply keeps_bind; [apply _| |intros need].
      + by apply drain_keeps.
      + unfold wait_for_users. rewrite Hnd, andb_false_r. apply keeps_ret, _. }
  split.
  - eapply keeps_result; [|exact H]. apply Hk; [apply _|].
    intros n Hn. by apply lxc_calls_within_touches.
  - assert (same_outside old w w') as Hout.
    { eapply keeps_result; [|exact H]. apply Hk; [apply _|].
      intros n Hn. by apply same_outside_touches. }
    by apply Hout.
Qed.

End RotationOutcome.

Lemma provision_configures_nodes_witness :
  ∃ cont, containers (provision rt_ok ["sc-0A"] host_with_B_live).1 !! "sc-0A" = Some cont
    ∧ running cont = true
    ∧ saved_config cont !! "lxc.start.auto" = Some "1"
    ∧ saved_config cont !! "lxc.start.delay" = Some (PyStr.str_nat start_delay).
Proof.
  refine (provision_configures_nodes rt_ok ["sc-0A"] host_with_B_live _ _ _ _ "sc-0A" _).
  - apply NoDup_singleton.
  - intros H%list_elem_of_singleton. discriminate H.
  - vm_compute. reflexivity.
  - left.
Defined.

Lemma provision_leaves_master_stopped_witness :
  is_running_in
    (provision rt_ok ["sc-0A"]
       (set_containers (alter (set_running true) "sagecell") host_with_B_live)).1
    lxcn_sagecell = false.
Proof.
  refine (provision_leaves_master_stopped rt_ok ["sc-0A"]
            (set_containers (alter (set_running true) "sagecell") host_with_B_live)
            _ _ _ _).
  - discriminate.
  - intros H%list_elem_of_singleton. discriminate H.
  - vm_compute. reflexivity.
Defined.


Lemma draining_waits_for_users_witness :
  (clock host_with_B_live + start_delay + deploy_delay
   ≤ clock (draining rt_ok deploy_args ["sc-0B"] host_with_B_live).1)%nat
  ∧ is_running_in (draining rt_ok deploy_args ["sc-0B"] host_with_B_live).1
      lxcn_sagecell = false.
Proof.
  refine (draining_waits_for_users rt_ok deploy_args ["sc-0B"] host_with_B_live _ _ _ _).
  - reflexivity.
  - exists "sc-0B". split; [left|vm_compute; reflexivity].
  - vm_compute. reflexivity.
Defined.

Lemma nodelay_leaves_master_alone_witness :
  lxc_calls_within ["sc-0B"] host_with_B_live
    (draining rt_ok (mkArgs true true) ["sc-0B"] host_with_B_live).1
  ∧ containers (draining rt_ok (mkArgs true true) ["sc-0B"] host_with_B_live).1
      !! lxcn_sagecell
    = containers host_with_B_live !! lxcn_sagecell.
Proof.
  refine (nodelay_leaves_master_alone rt_ok (mkArgs true true) ["sc-0B"]
            host_with_B_live _ (draining rt_ok (mkArgs true true) ["sc-0B"]
                                  host_with_B_live).2 _ _ _).
  - reflexivity.
  - intros H%list_elem_of_singleton. discriminate H.
  - vm_compute. reflexivity.
Defined.

(** ** The master, its backup and the tester *)


Section Master.

Variable rt : Runtime.




Lemma main_keeps (R : relation World) (args : Args) :
  HostWrites R → Touches R lxcn_sagecell → (∀ n, n ∈ all_nodes → Touches R n) →
  keeps R (main rt args).
Proof.
  intros HW HS HT.
  unfold main. apply keeps_bind; [apply _| |intros _];
    [|apply restart_haproxy_keeps, _].
  apply keeps_when; [apply _|]. unfold deploy.
  apply (keeps_bind_value _ _ _ (λ pools, pools_ok pools.1 pools.2)).
  - unfold choose_pools. keeps_tac.
  - intros w0 w0' [new old] Hc. by apply choose_pools_inv in Hc as (_ & Hok & _).
  - intros [new old] Hok. simpl in *. apply keeps_bind; [apply _| |intros _].
    + unfold cutover. apply keeps_bind; [apply _| |intros _].
      * apply provision_keeps; [apply _|]. intros n Hn. apply HT.
        apply (pools_all _ _ Hok). by left.
      * apply restart_haproxy_keeps, _.
    + unfold retire. apply keeps_bind; [apply _| |intros _].
      * apply draining_keeps; [apply _|]. intros n Hn.
        assert (n ∈ all_nodes) as Hall by (apply (pools_all _ _ Hok); by right).
        pose proof (HT n Hall) as HTn. apply _.
      * apply finalize_keeps; [apply _|]. intros n Hn. apply HT.
        apply (pools_all _ _ Hok). by right.
Qed.

Lemma main_frame (args : Args) (w w' : World) (r : result unit) :
  main rt args w = (w', r) →
  same_outside (lxcn_sagecell :: all_nodes) w w'.
Proof.
  intros H. eapply keeps_result; [|exact H]. apply main_keeps; [apply _|..].
  - apply same_outside_touches. by left.
  - intros n Hn. apply same_outside_touches. by right.
Qed.


(** X20: when the tester has been rebuilt with [--tester] and the rest
    of the run, with or without a rotation, returns, the tester is
    running and the configuration that the run leaves to HA-Proxy is
    built with the section of the tester. *)
Theorem tester_is_published (args : Args) (w w1 w2 : World) :
  rebuild_tester rt w = (w1, Ok tt) →
  main rt args w1 = (w2, Ok tt) →
  is_running_in w2 lxcn_tester = true
  ∧ host_files w2 !! haproxy_cfg
    = Some (haproxy_config (List.filter (is_defined_in w2) all_nodes) true).
Proof.
  intros Ht Hm. unfold rebuild_tester in Ht.
  apply bind_Ok_inv in Ht as (w0 & t & Hc & Hs).
  pose proof (clone_value _ _ _ _ _ _ _ _ Hc) as ->.
  apply start_Ok_running in Hs.
  assert (lxcn_tester ∉ lxcn_sagecell :: all_nodes) as Hnot.
  { apply (bool_decide_unpack _). vm_compute. exact I. }
  assert (is_running_in w2 lxcn_tester = true) as Hrun.
  { by rewrite (same_outside_running _ _ _ _ (main_frame _ _ _ _ Hm) Hnot). }
  split; [done|].
  unfold main in Hm. apply bind_Ok_inv in Hm as (w4 & [] & _ & Hr).
  apply restart_haproxy_Ok in Hr as [Hreg Hcfg].
  rewrite Hcfg. unfold is_defined_in. rewrite <- Hreg.
  apply is_running_in_defined in Hrun. unfold is_defined_in in Hrun.
  by rewrite Hrun.
Qed.

(** X21: [create_host_users] raises nothing but the [RuntimeError] for
    accounts that could not be created, never the failure of a command;
    it returns whenever the accounts are as expected at the end, whether
    or not the commands succeeded; it raises only after a command has
    been run and with accounts that are not as expected; and it changes
    no container. *)
Theorem create_host_users_contract (db : Accounts) (w w' : World) (r : result unit) :
  create_host_users rt db w = (w', r) →
  (r = Ok tt ∨ r = Raise (RuntimeError "failed to create accounts on host"))
  ∧ (accounts_as_expected db w' = true → r = Ok tt)
  ∧ (r = Raise (RuntimeError "failed to create accounts on host") →
     accounts_as_expected db w' = false
     ∧ ∃ command, EvExec command ∈ trace w')
  ∧ containers w' = containers w.
Proof.
  intros H.
  assert (containers w' = containers w) as Hreg.
  { change (same_registry w w'). eapply keeps_result; [|exact H].
    unfold create_host_users. keeps_tac. }
  unfold create_host_users in H.
  rewrite (bind_Ok _ _ w _ tt) in H by reflexivity.
  set (w0 := emit _ w) in H. unfold try_except_CalledProcessError in H.
  match type of H with
  | context [match ?body w0 with _ => _ end] => destruct (body w0) as [w1 [[]|e]] eqn:Hb
  end.
  - injection H as <- <-. split_and!; auto. by intros [=].
  - assert (∃ command, e = CalledProcessError command
                       ∧ EvExec command ∈ trace w1) as (command & -> & Hev).
    { apply bind_Raise_cases in Hb as [Hb|(wa & [] & _ & Hb)].
      - rewrite check_call_cases in Hb. eexists.
        destruct (sh_status _ _ _); [discriminate Hb|].
        injection Hb as <- <-. split; [done|left].
      - apply bind_Raise_cases in Hb as [Hb|(wb & [] & _ & Hb)];
          rewrite check_call_cases in Hb; eexists;
          (destruct (sh_status _ _ _); [discriminate Hb|]);
          injection Hb as <- <-; (split; [done|left]). }
    unfold bind, query in H.
    destruct (accounts_as_expected db w1) eqn:Hok; injection H as <- <-.
    + split_and!; auto. by intros [=].
    + split_and!; auto; [by rewrite Hok|]. intros _. eauto.
Qed.

End Master.


Lemma tester_is_published_witness :
  is_running_in
    (main rt_ok (mkArgs false false) (rebuild_tester rt_ok host_with_B_live).1).1
    lxcn_tester = true.
Proof.
  refine (proj1 (tester_is_published rt_ok (mkArgs false false) host_with_B_live
                   (rebuild_tester rt_ok host_with_B_live).1 _ _ _));
    vm_compute; reflexivity.
Defined.

Lemma create_host_users_contract_witness :
  (create_host_users (rt_host_command_fails "addgroup --gid 8888 sagecell")
     accounts_present host_with_B_live).2 = Ok tt.
Proof.
  refine (proj1 (proj2
            (create_host_users_contract
               (rt_host_command_fails "addgroup --gid 8888 sagecell")
               accounts_present host_with_B_live _ _ _)) _);
    vm_compute; reflexivity.
Defined.

(** ** When a clone fails *)

Section CloneFailures.

Variable rt : Runtime.

Lemma shutdown_Raise_message (self : string) (w w' : World) (e : exn) :
  SCLXC.shutdown rt self w = (w', Raise e) →
  e = RuntimeError ("failed to shutdown " +:+ self).
Proof.
  unfold SCLXC.shutdown. intros H.
  rewrite (bind_Ok _ _ w w (is_running_in w self)) in H by reflexivity.
  destruct (is_running_in w self) eqn:Hr; [|discriminate H].
  unfold bind, c.shutdown in H. rewrite Hr in H. simpl in H.
  destruct (lxc_shutdown_ok rt w self); [discriminate H|]. by injection H as _ <-.
Qed.

Lemma destroy_Raise_message (self : string) (w w' : World) (e : exn) :
  SCLXC.destroy rt self w = (w', Raise e) →
  e = RuntimeError ("failed to stop " +:+ self)
  ∨ e = RuntimeError ("failed to destroy " +:+ self).
Proof.
  unfold SCLXC.destroy. intros H.
  rewrite (bind_Ok _ _ w w (is_defined_in w self)) in H by reflexivity.
  destruct (is_defined_in w self); [|discriminate H].
  rewrite (bind_Ok _ _ w _ tt) in H by reflexivity.
  set (w1 := emit _ w) in H.
  rewrite (bind_Ok _ _ w1 w1 (is_running_in w self)) in H by reflexivity.
  apply bind_Raise_cases in H as [H|(w2 & stopped & Hst & H)].
  - destruct (is_running_in w self); [|discriminate H].
    unfold c.stop in H. by repeat case_match.
  - destruct stopped; [|left; by injection H as _ <-].
    right. destruct (c.destroy rt self w2) as [w3 [[]|e']] eqn:Hd.
    + rewrite (bind_Ok _ _ _ _ _ Hd) in H. discriminate H.
    + rewrite (bind_Ok _ _ _ _ _ Hd) in H. by injection H as _ <-.
    + unfold c.destroy in Hd. by repeat case_match.
Qed.

(** X23: a [clone] as the script calls it, without update, that finds
    no source raises before anything is done, so that an existing
    target survives; one that fails in the snapshot itself has already
    destroyed the old target and stopped the source; and in every case
    no container but the source and the target is changed. *)
Theorem clone_failure_modes (self target : string) (autostart : bool)
    (w w' : World) (e : exn) :
  self ≠ target →
  SCLXC.clone rt self target autostart false w = (w', Raise e) →
  (is_defined_in w self = false →
     e = RuntimeError "cannot clone a non-existing container" ∧ w' = w)
  ∧ (e = RuntimeError ("failed to clone " +:+ self) →
     is_defined_in w' target = false
     ∧ is_defined_in w' self = true
     ∧ is_running_in w' self = false)
  ∧ same_outside [self; target] w w'.
Proof.
  intros Hne H.
  assert (same_outside [self; target] w w') as Hout.
  { eapply keeps_result; [|exact H].
    pose proof (same_outside_touches [self; target] self ltac:(left)) as HS.
    pose proof (same_outside_touches [self; target] target ltac:(right; left)) as HT.
    apply clone_keeps; apply _. }
  split_and!; [| |done].
  - intros Hd. rewrite clone_unfold in H.
    rewrite (bind_Ok _ _ w w false) in H by (unfold c.defined, query; by rewrite Hd).
    by injection H as <- <-.
  - intros ->. rewrite clone_unfold in H.
    rewrite (bind_Ok _ _ w w (is_defined_in w self)) in H by reflexivity.
    destruct (is_defined_in w self) eqn:Hd; [|discriminate H].
    rewrite (bind_Ok _ _ w w tt) in H by reflexivity.
    apply bind_Raise_cases in H as [Hsh|(w1 & [] & Hsh & H)].
    { by apply shutdown_Raise_message in Hsh as [=]. }
    apply bind_Raise_cases in H as [Hde|(w2 & [] & Hde & H)].
    { by apply destroy_Raise_message in Hde as [[=]|[=]]. }
    rewrite (bind_Ok _ _ w2 _ tt) in H by reflexivity.
    set (w3 := emit _ w2) in H.
    assert (is_defined_in w2 target = false) as Htarget.
    { apply destroy_Ok_undefined in Hde. unfold is_defined_in. rewrite Hde.
      by apply bool_decide_eq_false_2; intros []. }
    assert (same_outside [target] w1 w2) as Hout2.
    { eapply keeps_result; [|exact Hde].
      apply destroy_keeps, (same_outside_touches _ _ ltac:(left)). }
    assert (self ∉ [target]) as Hnot by (by intros ->%list_elem_of_singleton).
    assert (is_running_in w2 self = false) as Hstopped.
    { rewrite (same_outside_running _ _ _ _ Hout2 Hnot).
      by eapply shutdown_Ok_stopped. }
    assert (is_defined_in w2 self = true) as Hdefined.
    { unfold is_defined_in. rewrite (Hout2 self Hnot).
      assert (same_defined w w1) as Hsd.
      { eapply keeps_result; [|exact Hsh]. apply shutdown_keeps, _. }
      by rewrite <- Hd, <- (Hsd self). }
    destruct (c.clone rt self target w3) as [w4 [[]|e']] eqn:Hcl.
    + rewrite (bind_Ok _ _ _ _ _ Hcl) in H.
      apply c_clone_true_inv in Hcl as (src & _ & _ & ->).
      destruct (after_snapshot_result target autostart src
                  (set_containers (insert target (snapshot src))
                     (emit (EvLxc self (OpClone target)) w3)))
        as (w5 & Hafter & _); [by simpl; rewrite lookup_insert_eq|].
      rewrite Hafter in H. discriminate H.
    + rewrite (bind_Ok _ _ _ _ _ Hcl) in H. injection H as <-.
      assert (containers w4 = containers w2) as Hreg.
      { unfold c.clone in Hcl. by repeat case_match; injection Hcl as <-. }
      unfold is_defined_in, is_running_in in *. by rewrite Hreg.
    + unfold c.clone in Hcl. by repeat case_match.
Qed.

End CloneFailures.

Lemma clone_failure_modes_witness :
  RuntimeError "cannot clone a non-existing container"
  = RuntimeError "cannot clone a non-existing container"
  ∧ (SCLXC.clone rt_ok "sc-0A" "sc-0B" true false host_with_B_live).1 = host_with_B_live.
Proof.
  refine (proj1 (clone_failure_modes rt_ok "sc-0A" "sc-0B" true host_with_B_live _
                   (RuntimeError "cannot clone a non-existing container") _ _) _).
  - discriminate.
  - vm_compute. reflexivity.
  - vm_compute. reflexivity.
Defined.
